(** * A shallow embedding of the HVAC digital-twin simulator

  The development follows the Python sources of the repository:

  - [hvac_sim/parameters.py]  (the [Params] dataclass),
  - [hvac_sim/physics.py]     ([hvac_power] and [rhs]),
  - [hvac_sim/simulator.py]   (the stateful [HVACSimulator]),
  - [hvac_sim/simulate.py]    (the batch loop of [run_simulation]),
  - [dashboard.py] and [run_live_hvac.py] (the ingestion callbacks and the
    bounded history deque).

  Python floats are modelled as exact rationals ([Q]): every arithmetic
  operation of the source is kept, rounding is not modelled.  Where
  rounding decides a property, module [Binary64] repeats the arithmetic on
  IEEE 754 binary64 numbers.  Python integers are [Z]. *)

From Stdlib Require Import QArith Qabs Lqa ZArith Lia PrimFloat Uint63.
From stdpp Require Import gmap strings list.

Local Open Scope Q_scope.

(** ** Python exceptions and dynamically typed values *)

Module Python.

(** The exception classes the modelled code can raise. *)
Inductive exn : Type :=
| KeyError
| ValueError
| TypeError
| IndexError.

(** A computation either returns a value or raises. *)
Inductive result (A : Type) : Type :=
| Ok (a : A)
| Raise (e : exn).
Arguments Ok {A} a.
Arguments Raise {A} e.

#[export] Instance result_ret : MRet result := fun A a => Ok a.
#[export] Instance result_bind : MBind result := fun A B f m =>
  match m with
  | Ok a => f a
  | Raise e => Raise e
  end.

(** What [json.loads] can put in a decoded message: [None], a bool, an int,
    a float, a str, or a nested list or dict (whose contents [int] and
    [float] never look at). *)
Inductive pyval : Type :=
| PNone
| PBool (b : bool)
| PInt (z : Z)
| PFloat (q : Q)
| PStr (s : string)
| PList
| PDict.

(** [d[k]] on a dict. *)
Definition getitem (d : gmap string pyval) (k : string) : result pyval :=
  match d !! k with
  | Some v => Ok v
  | None => Raise KeyError
  end.

(** [d.get(k, dflt)] on a dict. *)
Definition get (d : gmap string pyval) (k : string) (dflt : pyval) : pyval :=
  default dflt (d !! k).

Section Builtins.

(** The string parsers behind [float(s)] and [int(s)] are Python built-ins;
    they are taken as parameters.  [None] stands for a string the built-in
    rejects. *)
Variable float_of_str : string -> option Q.
Variable int_of_str : string -> option Z.

(** [float(v)]: numbers convert, a string is parsed (ValueError when it is
    not a number), anything else is a TypeError. *)
Definition py_float (v : pyval) : result Q :=
  match v with
  | PNone => Raise TypeError
  | PBool b => Ok (if b then 1 else 0)
  | PInt z => Ok (inject_Z z)
  | PFloat q => Ok q
  | PStr s =>
      match float_of_str s with
      | Some q => Ok q
      | None => Raise ValueError
      end
  | PList => Raise TypeError
  | PDict => Raise TypeError
  end.

(** [int(v)]: a float is truncated toward zero. *)
Definition py_int (v : pyval) : result Z :=
  match v with
  | PNone => Raise TypeError
  | PBool b => Ok (if b then 1 else 0)%Z
  | PInt z => Ok z
  | PFloat q => Ok (Z.quot (Qnum q) (Z.pos (Qden q)))
  | PStr s =>
      match int_of_str s with
      | Some z => Ok z
      | None => Raise ValueError
      end
  | PList => Raise TypeError
  | PDict => Raise TypeError
  end.

End Builtins.

(** [collections.deque(maxlen=n).append(x)]: the item is added on the right
    and, when the deque then exceeds [maxlen], one item is dropped on the
    left.  Nothing is raised. *)
Definition deque_append {A : Type} (maxlen : nat) (d : list A) (x : A) : list A :=
  let d' := d ++ [x] in
  if decide (maxlen < length d')%nat then tail d' else d'.

End Python.
Export Python.

(** ** hvac_sim/parameters.py *)

Module ParamsModel.

(** The [Params] dataclass: one field per attribute, in source order. *)
Record Params : Type := mkParams {
  R_oa : Q;
  R_wz : Q;
  R_ow : Q;
  C_z : Q;
  C_w : Q;
  COP : Q;
  P_fan_des : Q;
  m_air_des : Q;
  V : Q;
  ACH : Q;
  E_occ : Q;
  c_p : Q;
  COP_cool : Q;
  COP_heat : Q
}.

(** The two read-only properties return the capacitance unchanged. *)
Definition C_z_kW (self : Params) : Q := C_z self.
Definition C_w_kW (self : Params) : Q := C_w self.

(** [Params()] with every default of the dataclass. *)
Definition default_Params : Params :=
  {| R_oa := 3.0; R_wz := 1.6; R_ow := 2.0;
     C_z := 3000.0; C_w := 15000.0;
     COP := 3.5; P_fan_des := 1.2; m_air_des := 2.5;
     V := 240.0; ACH := 0.4; E_occ := 0.005; c_p := 1.006;
     COP_cool := 3.5; COP_heat := 3.0 |}.

(** The [__init__] generated by [@dataclass]: each argument is stored in
    its field.  The class has no [__post_init__] and no other check. *)
Definition Params_init (R_oa R_wz R_ow C_z C_w COP P_fan_des m_air_des
    V ACH E_occ c_p COP_cool COP_heat : Q) : result Params :=
  Ok (mkParams R_oa R_wz R_ow C_z C_w COP P_fan_des m_air_des
        V ACH E_occ c_p COP_cool COP_heat).

End ParamsModel.
Export ParamsModel.

(** ** hvac_sim/physics.py *)

Module Physics.

(** The state array [[T_z, T_w, CO2_z]] unpacked on entry of [rhs]. *)
Record State : Type := mkState {
  T_z : Q;
  T_w : Q;
  CO2_z : Q
}.

(** The inputs dictionary read by [rhs]: three keys are indexed directly,
    [I_sol] and [Q_int] are read with [.get] and a default. *)
Record Inputs : Type := mkInputs {
  T_out : Q;
  N_occ : Q;
  T_set : Q;
  I_sol : option Q;
  Q_int : option Q
}.

(** The array [[dTz, dTw, dCO2, P_e]] returned by [rhs]. *)
Record Deriv : Type := mkDeriv {
  dTz : Q;
  dTw : Q;
  dCO2 : Q;
  P_e : Q
}.

Definition hvac_power (T_z T_set : Q) (p : Params) : Q * Q :=
  let m_air := m_air_des p in
  let delta := T_z - T_set in
  if Qlt_le_dec 0 delta then
    let Q_ := m_air * c_p p * delta in
    (Q_, Q_ / COP p + P_fan_des p)
  else if Qlt_le_dec delta 0 then
    let Q_ := m_air * c_p p * delta in
    (Q_, Qabs Q_ / COP p + P_fan_des p)
  else
    (0.0, 0.0).

Definition rhs (state : State) (inp : Inputs) (p : Params) : Deriv :=
  let T_z := T_z state in
  let T_w := T_w state in
  let CO2_z := CO2_z state in
  let T_out := T_out inp in
  let N_occ := N_occ inp in
  let T_set := T_set inp in
  let I_sol := default 0.0 (I_sol inp) in
  let Q_int := default (100.0 * N_occ) (Q_int inp) in
  let '(Q_HVAC, P_e) := hvac_power T_z T_set p in
  let dTz := ((T_out - T_z) / R_oa p +
              (T_w - T_z) / R_wz p +
              Q_int / 1000.0 -
              Q_HVAC) / C_z_kW p in
  let dTw := ((T_z - T_w) / R_wz p +
              (T_out - T_w) / R_ow p +
              I_sol / 1000.0) / C_w_kW p in
  let Vdot_inf := ACH p * V p / 3600.0 in
  let C_out := 400.0 in
  let E_m3s := E_occ p * N_occ / 1000.0 in
  let dCO2 := (Vdot_inf * (C_out - CO2_z) + E_m3s * 1e6) / V p in
  {| dTz := dTz; dTw := dTw; dCO2 := dCO2; P_e := P_e |}.

End Physics.
Export Physics.

(** ** hvac_sim/simulator.py *)

Module Simulator.

(** The attributes of an [HVACSimulator] instance. *)
Record HVACSimulator : Type := mkHVACSimulator {
  state : State;
  params : Params;
  dt_s : Z;
  cumulative_energy_kwh : Q
}.

(** The dictionary returned by [step]. *)
Record StepResult : Type := mkStepResult {
  res_T_z : Q;
  res_T_w : Q;
  res_CO2_z : Q;
  res_P_e : Q;
  res_E_KWh_cumulative : Q
}.

(** [HVACSimulator.__init__]: stores its arguments, starts the energy
    counter at zero. *)
Definition HVACSimulator_init (initial_state : State) (params : Params)
    (dt_s : Z) : HVACSimulator :=
  {| state := initial_state;
     params := params;
     dt_s := dt_s;
     cumulative_energy_kwh := 0.0 |}.

(** [state += deriv[:3] * dt_s] on the three components. *)
Definition euler_update (state : State) (deriv : Deriv) (dt_s : Z) : State :=
  {| T_z := T_z state + dTz deriv * inject_Z dt_s;
     T_w := T_w state + dTw deriv * inject_Z dt_s;
     CO2_z := CO2_z state + dCO2 deriv * inject_Z dt_s |}.

(** [HVACSimulator.step]: the instance after the call and the returned
    dictionary. *)
Definition step (self : HVACSimulator) (inputs : Inputs)
    : HVACSimulator * StepResult :=
  let deriv := rhs (state self) inputs (params self) in
  let state' := euler_update (state self) deriv (dt_s self) in
  let power_kw := P_e deriv in
  let energy' :=
    cumulative_energy_kwh self + power_kw * inject_Z (dt_s self) / 3600.0 in
  ({| state := state';
      params := params self;
      dt_s := dt_s self;
      cumulative_energy_kwh := energy' |},
   {| res_T_z := T_z state';
      res_T_w := T_w state';
      res_CO2_z := CO2_z state';
      res_P_e := power_kw;
      res_E_KWh_cumulative := energy' |}).

(** Calling [step] once per element of a list of inputs, in order: the
    returned dictionaries and the instance after the last call. *)
Fixpoint steps (self : HVACSimulator) (inputs : list Inputs)
    : list StepResult * HVACSimulator :=
  match inputs with
  | [] => ([], self)
  | inp :: rest =>
      let '(self', r) := step self inp in
      let '(rs, self'') := steps self' rest in
      (r :: rs, self'')
  end.

End Simulator.
Export Simulator.

(** ** hvac_sim/simulate.py *)

Module Simulate.

(** One tuple appended to [rec] by the loop of [run_simulation]. *)
Record Rec : Type := mkRec {
  rec_time : Z;
  rec_T_z : Q;
  rec_T_w : Q;
  rec_CO2_z : Q;
  rec_P_e : Q;
  rec_E_KWh : Q
}.

(** The [for t, row in df_in.iterrows()] loop, with the three variables it
    updates ([state], [energy], [rec]) passed along. *)
Fixpoint run_simulation_loop (p : Params) (dt_s : Z)
    (rows : list (Z * Inputs)) (state : State) (energy : Q)
    (rec : list Rec) : list Rec :=
  match rows with
  | [] => rec
  | (t, row) :: rows' =>
      let deriv := rhs state row p in
      let state := euler_update state deriv dt_s in
      let P_e := P_e deriv in
      let energy := energy + P_e * inject_Z dt_s / 3600.0 in
      run_simulation_loop p dt_s rows' state energy
        (rec ++ [ {| rec_time := t;
                     rec_T_z := T_z state;
                     rec_T_w := T_w state;
                     rec_CO2_z := CO2_z state;
                     rec_P_e := P_e;
                     rec_E_KWh := energy |} ])
  end.

(** [run_simulation] up to the end of its loop: the value of [rec].  The
    first setpoint is read with [.iloc[0]], an IndexError on an empty
    frame. *)
Definition run_simulation (df_in : list (Z * Inputs)) (p : Params)
    (dt_s : Z) : result (list Rec) :=
  match df_in with
  | [] => Raise IndexError
  | (_, row0) :: _ =>
      let T0 := T_set row0 in
      let state := {| T_z := T0; T_w := T0; CO2_z := 600.0 |} in
      let energy := 0.0 in
      Ok (run_simulation_loop p dt_s df_in state energy [])
  end.

(** The five model columns of a recorded tuple. *)
Definition rec_values (r : Rec) : StepResult :=
  {| res_T_z := rec_T_z r;
     res_T_w := rec_T_w r;
     res_CO2_z := rec_CO2_z r;
     res_P_e := rec_P_e r;
     res_E_KWh_cumulative := rec_E_KWh r |}.

End Simulate.
Export Simulate.

(** ** dashboard.py and run_live_hvac.py: the ingestion callbacks *)

Module Ingestion.

(** A step result as stored in the history: the dictionary returned by
    [step] with the keys [timestamp], [N_occ] and [T_set] added. *)
Record HistoryEntry : Type := mkHistoryEntry {
  entry_result : StepResult;
  entry_timestamp : Z;
  entry_N_occ : Z;
  entry_T_set : Q
}.

(** The module-level objects the callbacks mutate: the global simulator
    and the global deque. *)
Record World : Type := mkWorld {
  hvac_sim : HVACSimulator;
  data_deque : list HistoryEntry
}.

(** [deque(maxlen=288)]. *)
Definition data_deque_maxlen : nat := 288.

(** Code that mutates the globals and may raise.  A mutation made before an
    exception is raised stays in place. *)
Definition M (A : Type) : Type := World -> result A * World.

#[export] Instance M_ret : MRet M := fun A a w => (Ok a, w).
#[export] Instance M_bind : MBind M := fun A B f m w =>
  match m w with
  | (Ok a, w') => f a w'
  | (Raise e, w') => (Raise e, w')
  end.

(** A computation that touches no global. *)
Definition pure_ {A : Type} (r : result A) : M A := fun w => (r, w).

(** [hvac_sim.step(inputs)] on the global simulator. *)
Definition call_step (inputs : Inputs) : M StepResult := fun w =>
  let '(sim', r) := step (hvac_sim w) inputs in
  (Ok r, {| hvac_sim := sim'; data_deque := data_deque w |}).

(** [with lock: data_deque.append(results)]. *)
Definition append_history (e : HistoryEntry) : M unit := fun w =>
  (Ok tt,
   {| hvac_sim := hvac_sim w;
      data_deque := deque_append data_deque_maxlen (data_deque w) e |}).

(** [try: body except (KeyError, ValueError) as e: print(...)]. *)
Definition try_except_KeyError_ValueError (body : M unit) : M unit := fun w =>
  match body w with
  | (Ok tt, w') => (Ok tt, w')
  | (Raise KeyError, w') => (Ok tt, w')
  | (Raise ValueError, w') => (Ok tt, w')
  | (Raise e, w') => (Raise e, w')
  end.

Section Callbacks.

Variable float_of_str : string -> option Q.
Variable int_of_str : string -> option Z.

Local Abbreviation float_ := (py_float float_of_str).
Local Abbreviation int_ := (py_int int_of_str).

(** The body of the [try] block of [dashboard.on_sensor_data_received];
    [now] is the value of [pd.to_datetime('now')]. *)
Definition dashboard_try_body (now : Z) (msg_dict : gmap string pyval)
    : M unit :=
  n_occ ← pure_ (v ← getitem msg_dict "N_occ"; int_ v);
  t_out ← pure_ (v ← getitem msg_dict "T_out"; float_ v);
  t_set ← pure_ (v ← getitem msg_dict "T_set"; float_ v);
  i_sol ← pure_ (float_ (get msg_dict "I_sol" (PFloat 0.0)));
  let inputs :=
    {| T_out := t_out; N_occ := inject_Z n_occ; T_set := t_set;
       I_sol := Some i_sol; Q_int := None |} in
  results ← call_step inputs;
  t_set' ← pure_ (v ← getitem msg_dict "T_set"; float_ v);
  append_history
    {| entry_result := results; entry_timestamp := now;
       entry_N_occ := n_occ; entry_T_set := t_set' |}.

(** [dashboard.on_sensor_data_received]. *)
Definition dashboard_on_sensor_data_received (now : Z)
    (msg_dict : gmap string pyval) : M unit :=
  try_except_KeyError_ValueError (dashboard_try_body now msg_dict).

(** The body of the [try] block of
    [run_live_hvac.on_sensor_data_received]: the results are printed,
    nothing is stored. *)
Definition run_live_try_body (msg_dict : gmap string pyval) : M unit :=
  t_out ← pure_ (v ← getitem msg_dict "T_out"; float_ v);
  n_occ ← pure_ (v ← getitem msg_dict "N_occ"; int_ v);
  t_set ← pure_ (v ← getitem msg_dict "T_set"; float_ v);
  i_sol ← pure_ (float_ (get msg_dict "I_sol" (PFloat 0.0)));
  let inputs :=
    {| T_out := t_out; N_occ := inject_Z n_occ; T_set := t_set;
       I_sol := Some i_sol; Q_int := None |} in
  results ← call_step inputs;
  mret tt.

(** [run_live_hvac.on_sensor_data_received]. *)
Definition run_live_on_sensor_data_received (msg_dict : gmap string pyval)
    : M unit :=
  try_except_KeyError_ValueError (run_live_try_body msg_dict).

End Callbacks.

End Ingestion.
Export Ingestion.

(** ** Notions used to state the properties *)

Module Notions.

(** [rhs] with the setpoint moved onto the zone temperature: the HVAC unit is
    idle and only the passive terms of the zone balance remain. *)
Definition idle_inputs (st : State) (inp : Inputs) : Inputs :=
  {| T_out := T_out inp; N_occ := N_occ inp; T_set := T_z st;
     I_sol := I_sol inp; Q_int := Q_int inp |}.

(** What the [- Q_HVAC] term adds to [dT_z/dt]: the derivative computed by
    [rhs] minus the derivative with the unit idle. *)
Definition hvac_term (st : State) (inp : Inputs) (p : Params) : Q :=
  dTz (rhs st inp p) - dTz (rhs st (idle_inputs st inp) p).

(** Every constant of a parameter set strictly positive. *)
Definition Params_positive (p : Params) : Prop :=
  0 < R_oa p /\ 0 < R_wz p /\ 0 < R_ow p /\ 0 < C_z p /\ 0 < C_w p /\
  0 < COP p /\ 0 < P_fan_des p /\ 0 < m_air_des p /\ 0 < V p /\
  0 < ACH p /\ 0 < E_occ p /\ 0 < c_p p /\ 0 < COP_cool p /\ 0 < COP_heat p.

(** A parameter set with its two unused efficiencies replaced. *)
Definition with_COP_cool_heat (p : Params) (cool heat : Q) : Params :=
  {| R_oa := R_oa p; R_wz := R_wz p; R_ow := R_ow p;
     C_z := C_z p; C_w := C_w p;
     COP := COP p; P_fan_des := P_fan_des p; m_air_des := m_air_des p;
     V := V p; ACH := ACH p; E_occ := E_occ p; c_p := c_p p;
     COP_cool := cool; COP_heat := heat |}.

(** The heating branch as the specification words it: the load divided by
    the heating efficiency. *)
Definition heating_divides_by_COP_heat (Tz Tset : Q) (p : Params) : Prop :=
  Tz < Tset ->
  fst (hvac_power Tz Tset p) == m_air_des p * c_p p * (Tz - Tset) /\
  snd (hvac_power Tz Tset p) ==
    Qabs (fst (hvac_power Tz Tset p)) / COP_heat p + P_fan_des p.

(** The initial state of [dashboard.py], [[18.0, 19.0, 600.0]]. *)
Definition dashboard_initial_state : State :=
  {| T_z := 18.0; T_w := 19.0; CO2_z := 600.0 |}.

(** A zone two degrees above the setpoint of the scenario below. *)
Definition warm_state : State :=
  {| T_z := 26.0; T_w := 25.0; CO2_z := 600.0 |}.

(** The simulator of [dashboard.py]: default parameters, 300 s steps. *)
Definition dashboard_simulator : HVACSimulator :=
  HVACSimulator_init dashboard_initial_state default_Params 300.

(** The inputs built from the event
    [{T_out: 25.0, N_occ: 5, T_set: 24.0, I_sol: 0.0}]. *)
Definition scenario_inputs : Inputs :=
  {| T_out := 25.0; N_occ := 5; T_set := 24.0;
     I_sol := Some 0.0; Q_int := None |}.

(** Each element at most the next one. *)
Fixpoint nondecreasing (l : list Q) : Prop :=
  match l with
  | [] => True
  | x :: t =>
      match t with
      | [] => True
      | y :: _ => x <= y /\ nondecreasing t
      end
  end.

(** Each element at least the next one. *)
Fixpoint nonincreasing (l : list Q) : Prop :=
  match l with
  | [] => True
  | x :: t =>
      match t with
      | [] => True
      | y :: _ => y <= x /\ nonincreasing t
      end
  end.

(** The history after the results [l] were appended, oldest first, to the
    initially empty [data_deque]. *)
Definition history_after (l : list HistoryEntry) : list HistoryEntry :=
  fold_left (deque_append data_deque_maxlen) l [].

(** A history entry that carries only a timestamp, for examples. *)
Definition entry_at (t : nat) : HistoryEntry :=
  {| entry_result :=
       {| res_T_z := 0; res_T_w := 0; res_CO2_z := 0; res_P_e := 0;
          res_E_KWh_cumulative := 0 |};
     entry_timestamp := Z.of_nat t;
     entry_N_occ := 0;
     entry_T_set := 0 |}.

(** The decoded payload [{"T_out": null, "N_occ": 3, "T_set": 24.0}]. *)
Definition null_T_out_msg : gmap string pyval :=
  <["T_out" := PNone]> (<["N_occ" := PInt 3]> (<["T_set" := PFloat 24.0]> ∅)).

(** The decoded payload [{"T_out": 25.0, "N_occ": 5}], without setpoint. *)
Definition missing_T_set_msg : gmap string pyval :=
  <["T_out" := PFloat 25.0]> (<["N_occ" := PInt 5]> ∅).

(** The decoded payload [{"T_out": 25.0, "N_occ": 5, "T_set": 24.0}]. *)
Definition valid_msg : gmap string pyval :=
  <["T_out" := PFloat 25.0]> (<["N_occ" := PInt 5]> (<["T_set" := PFloat 24.0]> ∅)).

(** The globals of [dashboard.py] at start-up. *)
Definition dashboard_world : World :=
  {| hvac_sim := dashboard_simulator; data_deque := [] |}.

(** No value of the message is [None], a list or a dict. *)
Definition scalar_values (msg_dict : gmap string pyval) : Prop :=
  forall (k : string) (v : pyval),
    msg_dict !! k = Some v -> v <> PNone /\ v <> PList /\ v <> PDict.

(** Inputs with nobody in the zone. *)
Definition empty_room_inputs : Inputs :=
  {| T_out := 25.0; N_occ := 0; T_set := 24.0;
     I_sol := None; Q_int := None |}.

End Notions.
Export Notions.

(** ** hvac_sim/simulate.py: the frame returned by [run_simulation] *)

Module Frame.

(** How a call can end: with a value, with one of the exceptions above, or
    with a ZeroDivisionError. *)
Inductive outcome (A : Type) : Type :=
| Returns (a : A)
| Raises (e : exn)
| RaisesZeroDivisionError.
Arguments Returns {A} a.
Arguments Raises {A} e.
Arguments RaisesZeroDivisionError {A}.

(** One row of the returned frame: the index [time], the five columns built
    from [rec] and the two shifted columns, where [None] is the NaN that
    [shift] fills in. *)
Record OutRow : Type := mkOutRow {
  out_time : Z;
  out_T_z : Q;
  out_T_w : Q;
  out_CO2_z : Q;
  out_P_e : Q;
  out_E_KWh : Q;
  out_T_z_h1 : option Q;
  out_CO2_h1 : option Q
}.

(** [Series.shift(periods)]: a positive count moves the values down, a
    negative one up; the places left free hold NaN and the length is
    kept. *)
Definition shift {A : Type} (periods : Z) (col : list A) : list (option A) :=
  let n := length col in
  if decide (0 <= periods)%Z then
    let k := Z.to_nat periods in
    replicate (k `min` n) None ++ (Some <$> take (n - k) col)
  else
    let k := Z.to_nat (- periods) in
    (Some <$> drop k col) ++ replicate (k `min` n) None.

(** The frame assembled from [rec] and the two shifted columns. *)
Definition assemble (rec : list Rec) (T_z_h1 CO2_h1 : list (option Q))
    : list OutRow :=
  zip_with
    (fun r h =>
       {| out_time := rec_time r;
          out_T_z := rec_T_z r;
          out_T_w := rec_T_w r;
          out_CO2_z := rec_CO2_z r;
          out_P_e := rec_P_e r;
          out_E_KWh := rec_E_KWh r;
          out_T_z_h1 := h.1;
          out_CO2_h1 := h.2 |})
    rec (zip T_z_h1 CO2_h1).

(** [run_simulation] to its [return]: after the loop, [hor = int(3600 /
    dt_s)] (a ZeroDivisionError for [dt_s = 0], truncation toward zero
    otherwise) and the columns [T_z_h1], [CO2_h1] are [T_z], [CO2_z]
    shifted by [-hor]. *)
Definition run_simulation_frame (df_in : list (Z * Inputs)) (p : Params)
    (dt_s : Z) : outcome (list OutRow) :=
  match run_simulation df_in p dt_s with
  | Raise e => Raises e
  | Ok rec =>
      if decide (dt_s = 0%Z) then RaisesZeroDivisionError
      else
        let hor := (3600 `quot` dt_s)%Z in
        Returns (assemble rec
                   (shift (- hor) (rec_T_z <$> rec))
                   (shift (- hor) (rec_CO2_z <$> rec)))
  end.

End Frame.
Export Frame.

(** ** dashboard.py: what [update_graph_live] reads *)

Module Reader.

(** The values [update_graph_live] takes from the last row of the history
    for its KPI block. *)
Record KPI : Type := mkKPI {
  kpi_T_z : Q;
  kpi_T_set : Q;
  kpi_CO2_z : Q;
  kpi_P_e : Q;
  kpi_N_occ : Z;
  kpi_total_energy_kwh : Q
}.

(** The data side of [update_graph_live]: under the lock, an empty deque
    gives the "No data yet." answer ([None]); otherwise the deque is copied
    and [latest_data = df.iloc[-1]] feeds the KPI block.  The globals are
    only read. *)
Definition update_graph_live (w : World) : option (list HistoryEntry * KPI) :=
  match last (data_deque w) with
  | None => None
  | Some latest_data =>
      Some (data_deque w,
            {| kpi_T_z := res_T_z (entry_result latest_data);
               kpi_T_set := entry_T_set latest_data;
               kpi_CO2_z := res_CO2_z (entry_result latest_data);
               kpi_P_e := res_P_e (entry_result latest_data);
               kpi_N_occ := entry_N_occ latest_data;
               kpi_total_energy_kwh :=
                 res_E_KWh_cumulative (entry_result latest_data) |})
  end.

End Reader.
Export Reader.

(** ** mqtt_integration/client.py *)

Module Client.

(** The attributes of an [MQTTClientConfig]. *)
Record MQTTClientConfig : Type := mkMQTTClientConfig {
  has_credentials : bool;
  client_id : pyval;
  broker_address : pyval;
  port : pyval;
  username : pyval;
  password : pyval
}.

(** [MQTTClientConfig.__init__(self, client_id, broker_address, port)]. *)
Definition MQTTClientConfig_init (client_id broker_address port : pyval)
    : MQTTClientConfig :=
  {| has_credentials := false;
     client_id := client_id;
     broker_address := broker_address;
     port := port;
     username := PNone;
     password := PNone |}.

(** [MQTTClientConfig.set_credentials]. *)
Definition set_credentials (self : MQTTClientConfig)
    (username password : pyval) : MQTTClientConfig :=
  {| has_credentials := true;
     client_id := client_id self;
     broker_address := broker_address self;
     port := port self;
     username := username;
     password := password |}.

(** A call that passes keyword arguments only, to a function whose
    parameters [params] have no defaults: a keyword that names no
    parameter, or a parameter left without argument, is a TypeError;
    otherwise every parameter is bound to its argument. *)
Definition bind_keywords (params : list string)
    (kwargs : list (string * pyval)) : result (gmap string pyval) :=
  if forallb (fun kv => bool_decide (kv.1 ∈ params)) kwargs
     && forallb (fun k => bool_decide (k ∈ kwargs.*1)) params
  then Ok (list_to_map kwargs)
  else Raise TypeError.

(** [MQTTClientConfig(...)] called with keyword arguments. *)
Definition MQTTClientConfig_call (kwargs : list (string * pyval))
    : result MQTTClientConfig :=
  args ← bind_keywords ["client_id"; "broker_address"; "port"] kwargs;
  Ok (MQTTClientConfig_init
        (default PNone (args !! "client_id"))
        (default PNone (args !! "broker_address"))
        (default PNone (args !! "port"))).

(** [x is not None]. *)
Definition is_not_None (v : pyval) : bool :=
  match v with
  | PNone => false
  | _ => true
  end.

(** [load_mqtt_config_with_parameters]. *)
Definition load_mqtt_config_with_parameters
    (broker_address broker_port client_id username password : pyval)
    : result MQTTClientConfig :=
  mqtt_client_config ←
    MQTTClientConfig_call
      [("broker_address", broker_address); ("broker_port", broker_port);
       ("client_id", client_id); ("username", username);
       ("password", password)];
  if is_not_None username && is_not_None password
  then Ok (set_credentials mqtt_client_config username password)
  else Ok mqtt_client_config.

(** [os.getenv(k)]: the string, or [None]. *)
Definition getenv (environ : gmap string string) (k : string) : pyval :=
  match environ !! k with
  | Some s => PStr s
  | None => PNone
  end.

(** [load_dotenv(path)]: the variables of the file are added to the
    environment; a variable that is already set keeps its value. *)
Definition load_dotenv (file : gmap string string)
    (environ : gmap string string) : gmap string string :=
  environ ∪ file.

Section LoadConfig.

Variable int_of_str : string -> option Z.

(** What each dotenv file defines (nothing when the file is absent). *)
Variable dotenv_file : string -> gmap string string.

(** [load_mqtt_config]: the configuration, or the exception of
    [int(os.getenv("BROKER_PORT"))], together with the environment as the
    dotenv files left it. *)
Definition load_mqtt_config (environ : gmap string string)
    : result MQTTClientConfig * gmap string string :=
  let environ :=
    if decide (environ !! "ENV" = Some "publish-local")
    then load_dotenv (dotenv_file "publisher-local.env") environ
    else environ in
  let environ :=
    if decide (environ !! "ENV" = Some "subscribe-local")
    then load_dotenv (dotenv_file "subscriber-local.env") environ
    else environ in
  let broker_address := getenv environ "BROKER_ADDRESS" in
  (broker_port ← py_int int_of_str (getenv environ "BROKER_PORT");
   let client_id := getenv environ "CLIENT_ID" in
   let username := getenv environ "USERNAME" in
   let password := getenv environ "PASSWORD" in
   mqtt_client_config ←
     MQTTClientConfig_call
       [("client_id", client_id); ("broker_address", broker_address);
        ("port", PInt broker_port)];
   if is_not_None username && is_not_None password
   then Ok (set_credentials mqtt_client_config username password)
   else Ok mqtt_client_config,
   environ).

End LoadConfig.

(** What [json.loads] returns: a dict for a JSON object, something else for
    any other JSON text. *)
Inductive json_top : Type :=
| JObject (d : gmap string pyval)
| JOther (v : pyval).

Section OnMessage.

Variable float_of_str : string -> option Q.
Variable int_of_str : string -> option Z.

(** [json.loads]; [None] stands for a payload it rejects with a
    JSONDecodeError (or UnicodeDecodeError), both subclasses of
    ValueError. *)
Variable json_loads : string -> option json_top.

(** The [on_message] closure of [MQTTClient.subscribe] with
    [dashboard.on_sensor_data_received] as callback.  Decoding happens
    before the callback and outside its [try].  On a decoded value that is
    not a dict the first statement of the callback's [try],
    [msg_dict["N_occ"]], raises TypeError, which its handler lets through. *)
Definition dashboard_on_message (now : Z) (payload : string) : M unit :=
  match json_loads payload with
  | None => pure_ (Raise ValueError)
  | Some (JObject msg_dict) =>
      dashboard_on_sensor_data_received float_of_str int_of_str now msg_dict
  | Some (JOther _) => pure_ (Raise TypeError)
  end.

(** The same closure with [run_live_hvac.on_sensor_data_received]; there
    the first subscript is [msg_dict["T_out"]]. *)
Definition run_live_on_message (payload : string) : M unit :=
  match json_loads payload with
  | None => pure_ (Raise ValueError)
  | Some (JObject msg_dict) =>
      run_live_on_sensor_data_received float_of_str int_of_str msg_dict
  | Some (JOther _) => pure_ (Raise TypeError)
  end.

End OnMessage.

End Client.
Export Client.

(** ** Further notions *)

Module MoreNotions.

(** [q] to the power [n]. *)
Fixpoint Qpow (q : Q) (n : nat) : Q :=
  match n with
  | O => 1
  | S n' => q * Qpow q n'
  end.

(** The sum of a list of rationals. *)
Definition Qsum (l : list Q) : Q := fold_right Qplus 0 l.

(** The CO2 level at which [dCO2] vanishes for [n] occupants: the outdoor
    400 ppm plus generation over infiltration. *)
Definition CO2_steady (p : Params) (n : Q) : Q :=
  400.0 + (E_occ p * n / 1000.0 * 1e6) / (ACH p * V p / 3600.0).

(** Inputs at rest: outdoor air and setpoint at [T], nobody in the zone, no
    sun. *)
Definition rest_inputs (T : Q) : Inputs :=
  {| T_out := T; N_occ := 0; T_set := T; I_sol := None; Q_int := None |}.

(** Inputs that keep a zone at temperature [T] at rest: outdoor air and
    setpoint at [T], nobody in the zone, no override of the internal gain,
    no sun. *)
Definition at_rest (T : Q) (inp : Inputs) : Prop :=
  T_out inp == T /\ T_set inp == T /\ N_occ inp == 0 /\
  Q_int inp = None /\ default 0.0 (I_sol inp) == 0.

(** The globals [dashboard.py] can reach from its start-up values by
    handling messages. *)
Inductive reachable (float_of_str : string -> option Q)
    (int_of_str : string -> option Z) : World -> Prop :=
| reachable_start : reachable float_of_str int_of_str dashboard_world
| reachable_message (w : World) (now : Z) (msg_dict : gmap string pyval) :
    reachable float_of_str int_of_str w ->
    reachable float_of_str int_of_str
      (snd (dashboard_on_sensor_data_received float_of_str int_of_str
              now msg_dict w)).

(** The recorded tuple a row of the frame was built from. *)
Definition out_rec (r : OutRow) : Rec :=
  {| rec_time := out_time r;
     rec_T_z := out_T_z r;
     rec_T_w := out_T_w r;
     rec_CO2_z := out_CO2_z r;
     rec_P_e := out_P_e r;
     rec_E_KWh := out_E_KWh r |}.

(** A frame of two rows, for examples. *)
Definition two_rows : list (Z * Inputs) :=
  [(0%Z, scenario_inputs); (1%Z, scenario_inputs)].

(** Inputs with the head count replaced. *)
Definition with_N_occ (inp : Inputs) (n : Q) : Inputs :=
  {| T_out := T_out inp; N_occ := n; T_set := T_set inp;
     I_sol := I_sol inp; Q_int := Q_int inp |}.

(** A decoder that rejects every payload, for examples. *)
Definition no_json : string -> option json_top := fun _ => None.

(** The largest int that [float(n)] and [100.0 * n] convert without an
    OverflowError is at least the largest binary64 number. *)
Definition max_float_int : Z := (2 ^ 1024 - 2 ^ 971)%Z.

Definition int_fits_float (z : Z) : Prop := (Z.abs z <= max_float_int)%Z.

(** A value [float] converts without overflow. *)
Definition value_fits_float (v : pyval) : Prop :=
  match v with
  | PInt z => int_fits_float z
  | _ => True
  end.

(** A decoded message whose numbers stay in the range of a float: every
    int in it, and the head count its [N_occ] converts to. *)
Definition message_fits (int_of_str : string -> option Z)
    (msg_dict : gmap string pyval) : Prop :=
  (forall (k : string) (v : pyval),
     msg_dict !! k = Some v -> value_fits_float v) /\
  (forall (v : pyval) (z : Z),
     msg_dict !! "N_occ" = Some v -> py_int int_of_str v = Ok z ->
     int_fits_float z).

(** A decoder that answers the message with a null field, for examples. *)
Definition null_json : string -> option json_top :=
  fun _ => Some (JObject null_T_out_msg).

(** A parser that accepts no string, for examples. *)
Definition no_float : string -> option Q := fun _ => None.
Definition no_int : string -> option Z := fun _ => None.

End MoreNotions.
Export MoreNotions.

(** ** The same code on binary64 numbers *)

(** The rational embedding above drops the rounding of every operation.
    This module keeps it: the arithmetic of [physics.py] and
    [simulator.py], operation by operation and in source order, on IEEE 754
    binary64 numbers rounded to nearest, which is what Python floats and
    numpy's [float64] compute. *)
Module Binary64.

Local Open Scope float_scope.
#[local] Set Warnings "-inexact-float".

Record Params : Type := mkParams {
  R_oa : float;
  R_wz : float;
  R_ow : float;
  C_z : float;
  C_w : float;
  COP : float;
  P_fan_des : float;
  m_air_des : float;
  V : float;
  ACH : float;
  E_occ : float;
  c_p : float;
  COP_cool : float;
  COP_heat : float
}.

Definition C_z_kW (self : Params) : float := C_z self.
Definition C_w_kW (self : Params) : float := C_w self.

(** Every constant strictly positive. *)
Definition Params_positive (p : Params) : bool :=
  (0 <? R_oa p) && (0 <? R_wz p) && (0 <? R_ow p) && (0 <? C_z p) &&
  (0 <? C_w p) && (0 <? COP p) && (0 <? P_fan_des p) &&
  (0 <? m_air_des p) && (0 <? V p) && (0 <? ACH p) && (0 <? E_occ p) &&
  (0 <? c_p p) && (0 <? COP_cool p) && (0 <? COP_heat p).

(** [Params(ACH=12.0)]: every other field at its default, each decimal
    literal read as the nearest binary64 number. *)
Definition Params_ACH_12 : Params :=
  {| R_oa := 3.0; R_wz := 1.6; R_ow := 2.0;
     C_z := 3000.0; C_w := 15000.0;
     COP := 3.5; P_fan_des := 1.2; m_air_des := 2.5;
     V := 240.0; ACH := 12.0; E_occ := 0.005; c_p := 1.006;
     COP_cool := 3.5; COP_heat := 3.0 |}.

Record State : Type := mkState {
  T_z : float;
  T_w : float;
  CO2_z : float
}.

(** The inputs dictionary; [N_occ] is the head count, an int. *)
Record Inputs : Type := mkInputs {
  T_out : float;
  N_occ : Z;
  T_set : float;
  I_sol : option float;
  Q_int : option float
}.

Record Deriv : Type := mkDeriv {
  dTz : float;
  dTw : float;
  dCO2 : float;
  P_e : float
}.

(** The conversion of an int to a float that [float * int] performs, for
    ints below [2 ^ 63] in absolute value. *)
Definition float_of_int (z : Z) : float :=
  if (0 <=? z)%Z then of_uint63 (Uint63.of_Z z)
  else - of_uint63 (Uint63.of_Z (- z)).

Definition hvac_power (T_z T_set : float) (p : Params) : float * float :=
  let m_air := m_air_des p in
  let delta := T_z - T_set in
  if 0 <? delta then
    let Q_ := m_air * c_p p * delta in
    (Q_, Q_ / COP p + P_fan_des p)
  else if delta <? 0 then
    let Q_ := m_air * c_p p * delta in
    (Q_, abs Q_ / COP p + P_fan_des p)
  else
    (0.0, 0.0).

Definition rhs (state : State) (inp : Inputs) (p : Params) : Deriv :=
  let T_z := T_z state in
  let T_w := T_w state in
  let CO2_z := CO2_z state in
  let T_out := T_out inp in
  let N_occ := float_of_int (N_occ inp) in
  let T_set := T_set inp in
  let I_sol := default 0.0 (I_sol inp) in
  let Q_int := default (100.0 * N_occ) (Q_int inp) in
  let '(Q_HVAC, P_e) := hvac_power T_z T_set p in
  let dTz := ((T_out - T_z) / R_oa p +
              (T_w - T_z) / R_wz p +
              Q_int / 1000.0 -
              Q_HVAC) / C_z_kW p in
  let dTw := ((T_z - T_w) / R_wz p +
              (T_out - T_w) / R_ow p +
              I_sol / 1000.0) / C_w_kW p in
  let Vdot_inf := ACH p * V p / 3600.0 in
  let C_out := 400.0 in
  let E_m3s := E_occ p * N_occ / 1000.0 in
  let dCO2 := (Vdot_inf * (C_out - CO2_z) + E_m3s * 1e6) / V p in
  {| dTz := dTz; dTw := dTw; dCO2 := dCO2; P_e := P_e |}.

Record HVACSimulator : Type := mkHVACSimulator {
  state : State;
  params : Params;
  dt_s : Z;
  cumulative_energy_kwh : float
}.

Definition HVACSimulator_init (initial_state : State) (params : Params)
    (dt_s : Z) : HVACSimulator :=
  {| state := initial_state;
     params := params;
     dt_s := dt_s;
     cumulative_energy_kwh := 0.0 |}.

(** [HVACSimulator.step]: the instance after the call and the values of
    the returned dictionary, [(T_z, T_w, CO2_z, P_e, E_KWh_cumulative)]. *)
Definition step (self : HVACSimulator) (inputs : Inputs)
    : HVACSimulator * (float * float * float * float * float) :=
  let deriv := rhs (state self) inputs (params self) in
  let dt := float_of_int (dt_s self) in
  let state' :=
    {| T_z := T_z (state self) + dTz deriv * dt;
       T_w := T_w (state self) + dTw deriv * dt;
       CO2_z := CO2_z (state self) + dCO2 deriv * dt |} in
  let power_kw := P_e deriv in
  let energy' := cumulative_energy_kwh self + power_kw * dt / 3600.0 in
  ({| state := state';
      params := params self;
      dt_s := dt_s self;
      cumulative_energy_kwh := energy' |},
   (T_z state', T_w state', CO2_z state', power_kw, energy')).

(** A zone at 637 ppm with nobody in it, and inputs to match. *)
Definition state_637 : State :=
  {| T_z := 18.0; T_w := 19.0; CO2_z := 637.0 |}.

Definition empty_room : Inputs :=
  {| T_out := 25.0; N_occ := 0; T_set := 24.0;
     I_sol := None; Q_int := None |}.

End Binary64.

(** * Properties *)

(** ** The power formula *)

Section HvacPower.

Variables (Tz Tset : Q) (p : Params).

(** The three branches of [hvac_power], selected by the sign of
    [T_z - T_set]. *)
Lemma hvac_power_cooling :
  Tset < Tz ->
  hvac_power Tz Tset p =
    (m_air_des p * c_p p * (Tz - Tset),
     m_air_des p * c_p p * (Tz - Tset) / COP p + P_fan_des p).
Proof.
  intros H. unfold hvac_power.
  destruct (Qlt_le_dec 0 (Tz - Tset)) as [_|Hle]; [reflexivity | lra].
Qed.

Lemma hvac_power_heating :
  Tz < Tset ->
  hvac_power Tz Tset p =
    (m_air_des p * c_p p * (Tz - Tset),
     Qabs (m_air_des p * c_p p * (Tz - Tset)) / COP p + P_fan_des p).
Proof.
  intros H. unfold hvac_power.
  destruct (Qlt_le_dec 0 (Tz - Tset)) as [Hlt|_]; [lra|].
  destruct (Qlt_le_dec (Tz - Tset) 0) as [_|Hle]; [reflexivity | lra].
Qed.

Lemma hvac_power_idle :
  Tz == Tset -> hvac_power Tz Tset p = (0.0, 0.0).
Proof.
  intros H. unfold hvac_power.
  destruct (Qlt_le_dec 0 (Tz - Tset)) as [Hlt|_]; [lra|].
  destruct (Qlt_le_dec (Tz - Tset) 0) as [Hlt|_]; [lra | reflexivity].
Qed.

End HvacPower.

(** The product [m_air * c_p * delta] has the sign of [delta] when the air
    flow and the specific heat are positive. *)
Lemma load_pos (m c d : Q) : 0 < m -> 0 < c -> 0 < d -> 0 < m * c * d.
Proof.
  intros Hm Hc Hd. apply Qmult_lt_0_compat; [apply Qmult_lt_0_compat|]; assumption.
Qed.

Lemma load_neg (m c d : Q) : 0 < m -> 0 < c -> d < 0 -> m * c * d < 0.
Proof.
  intros Hm Hc Hd.
  assert (H : 0 < m * c * (- d)) by (apply load_pos; lra).
  lra.
Qed.

Lemma hvac_term_eq (st : State) (inp : Inputs) (p : Params) :
  hvac_term st inp p == - fst (hvac_power (T_z st) (T_set inp) p) / C_z_kW p.
Proof.
  unfold hvac_term, rhs. cbn [idle_inputs T_set T_out N_occ I_sol Q_int].
  rewrite (hvac_power_idle (T_z st) (T_z st) p) by reflexivity.
  destruct (hvac_power (T_z st) (T_set inp) p) as [Qh Pe].
  cbn [dTz fst]. unfold Qdiv. ring.
Qed.



(** In the heating branch the result ignores [COP_cool] and [COP_heat]. *)
Lemma hvac_power_ignores_COP_cool_heat (Tz Tset : Q) (p : Params) (cool heat : Q) :
  hvac_power Tz Tset (with_COP_cool_heat p cool heat) = hvac_power Tz Tset p.
Proof. reflexivity. Qed.

(** C2, as stated, fails: with the default parameters and [T_z = 18],
    [T_set = 24] the electrical power is not [|Q| / COP_heat + P_fan]. *)
Lemma heating_divides_by_COP_heat_fails :
  ~ heating_divides_by_COP_heat 18 24 default_Params.
Proof.
  intros H. destruct (H ltac:(reflexivity)) as [_ HP].
  vm_compute in HP. discriminate HP.
Qed.

(** C2, amended.  For [T_z < T_set] (heating required) [hvac_power] returns
    [Q = m_air * c_p * (T_z - T_set)], which is negative for a positive air
    flow and specific heat, and [P_e = |Q| / COP + P_fan]: the heating
    branch divides by the single [COP] field, the one the cooling branch
    uses; [COP_heat] and [COP_cool] are not read. *)
Theorem hvac_power_heating_divides_by_COP (Tz Tset : Q) (p : Params) :
  Tz < Tset ->
  hvac_power Tz Tset p =
    (m_air_des p * c_p p * (Tz - Tset),
     Qabs (m_air_des p * c_p p * (Tz - Tset)) / COP p + P_fan_des p) /\
  (0 < m_air_des p -> 0 < c_p p -> fst (hvac_power Tz Tset p) < 0) /\
  (forall cool heat : Q,
     hvac_power Tz Tset (with_COP_cool_heat p cool heat) = hvac_power Tz Tset p).
Proof.
  intros Hlt. split; [apply hvac_power_heating; exact Hlt|]. split.
  - intros Hm Hc. rewrite hvac_power_heating by exact Hlt. cbn [fst].
    apply load_neg; lra.
  - intros cool heat. apply hvac_power_ignores_COP_cool_heat.
Qed.

Lemma hvac_power_heating_divides_by_COP_witness :
  hvac_power 18 24 default_Params =
    (m_air_des default_Params * c_p default_Params * (18 - 24),
     Qabs (m_air_des default_Params * c_p default_Params * (18 - 24))
       / COP default_Params + P_fan_des default_Params) /\
  (0 < m_air_des default_Params -> 0 < c_p default_Params ->
   fst (hvac_power 18 24 default_Params) < 0) /\
  (forall cool heat : Q,
     hvac_power 18 24 (with_COP_cool_heat default_Params cool heat) =
     hvac_power 18 24 default_Params).
Proof.
  apply (hvac_power_heating_divides_by_COP 18 24 default_Params).
  reflexivity.
Defined.

(** ** The stateful integrator *)

(** C3, as stated, fails: in the concrete scenario the step does not return
    [P_e == 0] together with a grown CO2 level; the power is not zero. *)
Lemma scenario_power_zero_fails :
  ~ (res_P_e (snd (step dashboard_simulator scenario_inputs)) == 0 /\
     600.0 < res_CO2_z (snd (step dashboard_simulator scenario_inputs))).
Proof.
  intros [HP _]. vm_compute in HP. discriminate HP.
Qed.

(** C3, amended.  With the default parameters, initial state
    [T_z = 18.0], [T_w = 19.0], [CO2_z = 600.0] and [dt = 300] s, one step
    on [{T_out: 25.0, N_occ: 5, T_set: 24.0, I_sol: 0.0}] returns the
    heating-branch power [P_e = |Q| / COP + P_fan = 1929/350] kW, which is
    strictly positive, and a CO2 level of [7495/12] ppm, strictly above
    600.0. *)
Theorem scenario_step_result :
  let r := snd (step dashboard_simulator scenario_inputs) in
  res_P_e r ==
    Qabs (m_air_des default_Params * c_p default_Params * (18.0 - 24.0))
      / COP default_Params + P_fan_des default_Params /\
  res_P_e r == 1929 # 350 /\
  0 < res_P_e r /\
  res_CO2_z r == 7495 # 12 /\
  600.0 < res_CO2_z r.
Proof.
  cbv zeta. repeat split; vm_compute; reflexivity.
Qed.

(** The power returned by [hvac_power] is never negative when the air flow,
    the specific heat, the efficiency and the fan power are positive. *)
Lemma hvac_power_nonneg (Tz Tset : Q) (p : Params) :
  0 < m_air_des p -> 0 < c_p p -> 0 < COP p -> 0 < P_fan_des p ->
  0 <= snd (hvac_power Tz Tset p).
Proof.
  intros Hm Hc HCOP Hfan.
  assert (Hinv : 0 < / COP p) by (apply Qinv_lt_0_compat; exact HCOP).
  destruct (Q_dec Tz Tset) as [[Hlt|Hgt]|Heq].
  - rewrite hvac_power_heating by exact Hlt. cbn [snd]. unfold Qdiv.
    assert (H : 0 <= Qabs (m_air_des p * c_p p * (Tz - Tset)) * / COP p)
      by (apply Qmult_le_0_compat; [apply Qabs_nonneg | lra]).
    lra.
  - rewrite hvac_power_cooling by exact Hgt. cbn [snd]. unfold Qdiv.
    assert (HQ : 0 < m_air_des p * c_p p * (Tz - Tset))
      by (apply load_pos; lra).
    assert (H : 0 <= m_air_des p * c_p p * (Tz - Tset) * / COP p)
      by (apply Qmult_le_0_compat; lra).
    lra.
  - rewrite hvac_power_idle by exact Heq. cbn [snd]. lra.
Qed.

(** [rhs] passes the power of [hvac_power] through unchanged. *)
Lemma rhs_P_e (st : State) (inp : Inputs) (p : Params) :
  P_e (rhs st inp p) = snd (hvac_power (T_z st) (T_set inp) p).
Proof.
  unfold rhs. destruct (hvac_power (T_z st) (T_set inp) p). reflexivity.
Qed.

(** One step adds [P_e * dt_s / 3600] to the energy counter. *)
Lemma step_energy (self : HVACSimulator) (inp : Inputs) :
  cumulative_energy_kwh (fst (step self inp)) =
    cumulative_energy_kwh self +
    P_e (rhs (state self) inp (params self)) * inject_Z (dt_s self) / 3600.0.
Proof. reflexivity. Qed.

(** [step] changes neither the parameters nor the step size. *)
Lemma step_params (self : HVACSimulator) (inp : Inputs) :
  params (fst (step self inp)) = params self.
Proof. reflexivity. Qed.

Lemma step_dt_s (self : HVACSimulator) (inp : Inputs) :
  dt_s (fst (step self inp)) = dt_s self.
Proof. reflexivity. Qed.

(** Unfolding [steps] by one call. *)
Lemma steps_cons (self : HVACSimulator) (inp : Inputs) (rest : list Inputs) :
  steps self (inp :: rest) =
    (snd (step self inp) :: fst (steps (fst (step self inp)) rest),
     snd (steps (fst (step self inp)) rest)).
Proof.
  cbn [steps]. destruct (step self inp) as [self' r]. cbn [fst snd].
  destruct (steps self' rest) as [rs self'']. reflexivity.
Qed.

Lemma steps_params_dt_s (inputs : list Inputs) (self : HVACSimulator) :
  params (snd (steps self inputs)) = params self /\
  dt_s (snd (steps self inputs)) = dt_s self.
Proof.
  revert self. induction inputs as [|inp rest IH]; intros self.
  - split; reflexivity.
  - rewrite steps_cons. cbn [snd].
    destruct (IH (fst (step self inp))) as [Hp Hd].
    rewrite Hp, Hd. split; reflexivity.
Qed.

(** The energy reported by a step is at least the energy before it. *)
Lemma step_energy_le (self : HVACSimulator) (inp : Inputs) :
  0 < m_air_des (params self) -> 0 < c_p (params self) ->
  0 < COP (params self) -> 0 < P_fan_des (params self) ->
  (0 <= dt_s self)%Z ->
  cumulative_energy_kwh self <= res_E_KWh_cumulative (snd (step self inp)).
Proof.
  intros Hm Hc HCOP Hfan Hdt. cbn [step snd res_E_KWh_cumulative].
  rewrite rhs_P_e.
  pose proof (hvac_power_nonneg (T_z (state self)) (T_set inp) (params self)
                Hm Hc HCOP Hfan) as HP.
  assert (Hd : 0 <= inject_Z (dt_s self)).
  { change 0 with (inject_Z 0). rewrite <- Zle_Qle. exact Hdt. }
  set (P := snd (hvac_power (T_z (state self)) (T_set inp) (params self))) in *.
  assert (H : 0 <= P * inject_Z (dt_s self)) by (apply Qmult_le_0_compat; assumption).
  unfold Qdiv.
  assert (H' : 0 <= P * inject_Z (dt_s self) * / 3600.0)
    by (apply Qmult_le_0_compat; [exact H | discriminate]).
  lra.
Qed.

Lemma steps_energy_nondecreasing (inputs : list Inputs) (self : HVACSimulator) :
  0 < m_air_des (params self) -> 0 < c_p (params self) ->
  0 < COP (params self) -> 0 < P_fan_des (params self) ->
  (0 <= dt_s self)%Z ->
  nondecreasing
    (cumulative_energy_kwh self ::
     map res_E_KWh_cumulative (fst (steps self inputs))).
Proof.
  revert self. induction inputs as [|inp rest IH]; intros self Hm Hc HCOP Hfan Hdt.
  - exact I.
  - rewrite steps_cons. cbn [fst map nondecreasing].
    split; [apply step_energy_le; assumption|].
    apply (IH (fst (step self inp))); assumption.
Qed.

Lemma steps_power_nonneg (inputs : list Inputs) (self : HVACSimulator) :
  0 < m_air_des (params self) -> 0 < c_p (params self) ->
  0 < COP (params self) -> 0 < P_fan_des (params self) ->
  Forall (fun r => 0 <= res_P_e r) (fst (steps self inputs)).
Proof.
  revert self. induction inputs as [|inp rest IH]; intros self Hm Hc HCOP Hfan.
  - constructor.
  - rewrite steps_cons. cbn [fst]. constructor.
    + cbn [step snd res_P_e]. rewrite rhs_P_e.
      apply hvac_power_nonneg; assumption.
    + apply (IH (fst (step self inp))); assumption.
Qed.

(** C4.  For positive parameters the electrical power returned by
    [hvac_power], and echoed as [P_e] in every step result, is never
    negative; consequently, for a non-negative step size, over any sequence
    of [step] calls on a fresh simulator (cumulative energy 0) the
    cumulative energy is non-decreasing. *)
Theorem power_nonneg_energy_monotone (p : Params) (dt : Z) :
  Params_positive p -> (0 <= dt)%Z ->
  (forall Tz Tset : Q, 0 <= snd (hvac_power Tz Tset p)) /\
  (forall (st : State) (inp : Inputs), 0 <= P_e (rhs st inp p)) /\
  (forall (st0 : State) (inputs : list Inputs),
     let rs := fst (steps (HVACSimulator_init st0 p dt) inputs) in
     Forall (fun r => 0 <= res_P_e r) rs /\
     nondecreasing (0.0 :: map res_E_KWh_cumulative rs)).
Proof.
  intros (_ & _ & _ & _ & _ & HCOP & Hfan & Hm & _ & _ & _ & Hc & _ & _) Hdt.
  split; [|split].
  - intros Tz Tset. apply hvac_power_nonneg; assumption.
  - intros st inp. rewrite rhs_P_e. apply hvac_power_nonneg; assumption.
  - intros st0 inputs rs. subst rs. split.
    + apply steps_power_nonneg; assumption.
    + apply (steps_energy_nondecreasing inputs (HVACSimulator_init st0 p dt));
        assumption.
Qed.

Lemma default_Params_positive : Params_positive default_Params.
Proof. repeat split. Qed.

Lemma power_nonneg_energy_monotone_witness :
  (forall Tz Tset : Q, 0 <= snd (hvac_power Tz Tset default_Params)) /\
  (forall (st : State) (inp : Inputs), 0 <= P_e (rhs st inp default_Params)) /\
  (forall (st0 : State) (inputs : list Inputs),
     let rs := fst (steps (HVACSimulator_init st0 default_Params 300) inputs) in
     Forall (fun r => 0 <= res_P_e r) rs /\
     nondecreasing (0.0 :: map res_E_KWh_cumulative rs)).
Proof.
  apply (power_nonneg_energy_monotone default_Params 300).
  - repeat split.
  - lia.
Defined.

(** C5.  A call to [step] evaluates [rhs] at the state before the call,
    advances [T_z], [T_w] and [CO2_z] by [derivative * dt_s], adds
    [P_e * dt_s / 3600] to the cumulative energy, leaves [dt_s] (and the
    parameters) as they were, and returns the state and the cumulative
    energy after the update together with [P_e]; after any sequence of
    calls the step size is still the one given at construction. *)
Theorem step_forward_euler (self : HVACSimulator) (inputs : Inputs) :
  let deriv := rhs (state self) inputs (params self) in
  let self' := fst (step self inputs) in
  let r := snd (step self inputs) in
  (T_z (state self') = T_z (state self) + dTz deriv * inject_Z (dt_s self) /\
   T_w (state self') = T_w (state self) + dTw deriv * inject_Z (dt_s self) /\
   CO2_z (state self') =
     CO2_z (state self) + dCO2 deriv * inject_Z (dt_s self)) /\
  cumulative_energy_kwh self' =
    cumulative_energy_kwh self + P_e deriv * inject_Z (dt_s self) / 3600.0 /\
  (dt_s self' = dt_s self /\ params self' = params self) /\
  (res_T_z r = T_z (state self') /\
   res_T_w r = T_w (state self') /\
   res_CO2_z r = CO2_z (state self') /\
   res_P_e r = P_e deriv /\
   res_E_KWh_cumulative r = cumulative_energy_kwh self') /\
  (forall (st0 : State) (p : Params) (dt : Z) (l : list Inputs),
     dt_s (HVACSimulator_init st0 p dt) = dt /\
     cumulative_energy_kwh (HVACSimulator_init st0 p dt) = 0.0 /\
     dt_s (snd (steps (HVACSimulator_init st0 p dt) l)) = dt).
Proof.
  cbv zeta. repeat split.
  apply (steps_params_dt_s l (HVACSimulator_init st0 p dt)).
Qed.

(** ** The bounded history *)

Section Deque.

Context {A : Type}.
Variable maxlen : nat.

Implicit Types (d l : list A) (x : A).

(** Below capacity the item is simply added. *)
Lemma deque_append_room d x :
  (length d < maxlen)%nat -> deque_append maxlen d x = d ++ [x].
Proof.
  intros H. unfold deque_append. rewrite length_app. cbn [length].
  destruct (decide (maxlen < length d + 1)%nat); [lia | reflexivity].
Qed.

(** At capacity the leftmost item makes room. *)
Lemma deque_append_full d x :
  length d = maxlen -> deque_append maxlen d x = drop 1 (d ++ [x]).
Proof.
  intros H. unfold deque_append. rewrite length_app. cbn [length].
  destruct (decide (maxlen < length d + 1)%nat); [|lia].
  destruct (d ++ [x]); reflexivity.
Qed.

Lemma deque_append_length d x :
  (length d <= maxlen)%nat -> (length (deque_append maxlen d x) <= maxlen)%nat.
Proof.
  intros H. destruct (decide (length d = maxlen)) as [Heq|Hne].
  - rewrite deque_append_full by exact Heq.
    rewrite length_drop, length_app. cbn [length]. lia.
  - rewrite deque_append_room by lia.
    rewrite length_app. cbn [length]. lia.
Qed.

(** Appending a run of items keeps the last [maxlen] of everything seen. *)
Lemma deque_extend l : forall d,
  (length d <= maxlen)%nat ->
  fold_left (deque_append maxlen) l d =
    drop (length (d ++ l) - maxlen) (d ++ l).
Proof.
  induction l as [|x l IH]; intros d Hd.
  - cbn [fold_left]. rewrite app_nil_r.
    replace (length d - maxlen)%nat with 0%nat by lia. reflexivity.
  - cbn [fold_left]. rewrite IH by (apply deque_append_length; exact Hd).
    destruct (decide (length d = maxlen)) as [Heq|Hne].
    + rewrite deque_append_full by exact Heq.
      replace (drop 1 (d ++ [x]) ++ l) with (drop 1 (d ++ x :: l)).
      2:{ rewrite (cons_middle x d l), (assoc_L (++)).
          destruct (d ++ [x]) eqn:E; [|reflexivity].
          destruct d; discriminate E. }
      rewrite drop_drop. f_equal.
      rewrite length_drop, !length_app. cbn [length]. lia.
    + rewrite deque_append_room by lia.
      rewrite <- (assoc_L (++)). reflexivity.
Qed.

End Deque.

Lemma history_after_drop (l : list HistoryEntry) :
  history_after l = drop (length l - data_deque_maxlen) l.
Proof.
  unfold history_after. rewrite deque_extend by (cbn; lia). reflexivity.
Qed.

(** C6.  The history deque of capacity [N = 288] never holds more than [N]
    results; after [N + k] results were appended it holds [N] of them,
    namely the [N] most recent in the order of the calls, the [k] oldest
    being gone; and an append, also on a full deque, returns normally. *)
Theorem history_capacity (k : nat) (results : list HistoryEntry) :
  length results = (data_deque_maxlen + k)%nat ->
  history_after results = drop k results /\
  length (history_after results) = data_deque_maxlen /\
  (forall l : list HistoryEntry,
     (length (history_after l) <= data_deque_maxlen)%nat) /\
  (forall (e : HistoryEntry) (w : World),
     fst (append_history e w) = Ok tt /\
     data_deque (snd (append_history e w)) =
       deque_append data_deque_maxlen (data_deque w) e /\
     hvac_sim (snd (append_history e w)) = hvac_sim w).
Proof.
  intros Hlen.
  assert (H : history_after results = drop k results).
  { rewrite history_after_drop. f_equal. lia. }
  split; [exact H|]. split.
  - rewrite H, length_drop. lia.
  - split.
    + intros l. rewrite history_after_drop, length_drop. lia.
    + intros e w. repeat split.
Qed.

Lemma history_capacity_witness :
  history_after (map entry_at (seq 0 290)) =
    drop 2 (map entry_at (seq 0 290)) /\
  length (history_after (map entry_at (seq 0 290))) = data_deque_maxlen /\
  (forall l : list HistoryEntry,
     (length (history_after l) <= data_deque_maxlen)%nat) /\
  (forall (e : HistoryEntry) (w : World),
     fst (append_history e w) = Ok tt /\
     data_deque (snd (append_history e w)) =
       deque_append data_deque_maxlen (data_deque w) e /\
     hvac_sim (snd (append_history e w)) = hvac_sim w).
Proof.
  apply (history_capacity 2 (map entry_at (seq 0 290))).
  vm_compute. reflexivity.
Defined.

(** ** The ingestion callbacks *)

Section IngestionFacts.

Variable float_of_str : string -> option Q.
Variable int_of_str : string -> option Z.

Local Abbreviation float_ := (py_float float_of_str).
Local Abbreviation int_ := (py_int int_of_str).

(** [float] and [int] raise nothing but ValueError on a scalar. *)
Lemma py_float_scalar (v : pyval) (e : exn) :
  v <> PNone -> v <> PList -> v <> PDict ->
  float_ v = Raise e -> e = ValueError.
Proof.
  intros H1 H2 H3. destruct v; cbn; try congruence.
  destruct (float_of_str s); congruence.
Qed.

Lemma py_int_scalar (v : pyval) (e : exn) :
  v <> PNone -> v <> PList -> v <> PDict ->
  int_ v = Raise e -> e = ValueError.
Proof.
  intros H1 H2 H3. destruct v; cbn; try congruence.
  destruct (int_of_str s); congruence.
Qed.

(** The failing message, field by field. *)
Lemma null_T_out_msg_fields :
  getitem null_T_out_msg "N_occ" = Ok (PInt 3) /\
  getitem null_T_out_msg "T_out" = Ok PNone /\
  getitem null_T_out_msg "T_set" = Ok (PFloat 24.0).
Proof. repeat split. Qed.


(** Case analysis on the conversions a callback performs before it calls
    [step]. *)
Ltac conversion_case :=
  match goal with
  | |- context [getitem ?m ?k] =>
      destruct (getitem m k) as [?v|[]] eqn:?Hget
  | |- context [py_int ?f ?v] =>
      destruct (py_int f v) as [?n|[]] eqn:?Hint
  | |- context [py_float ?f ?v] =>
      destruct (py_float f v) as [?q|[]] eqn:?Hfloat
  end; cbn.

Ltac parse_cases :=
  unfold dashboard_on_sensor_data_received, run_live_on_sensor_data_received,
    try_except_KeyError_ValueError, dashboard_try_body, run_live_try_body,
    mbind, mret, M_bind, M_ret, pure_, result_bind, call_step, append_history;
  repeat conversion_case.

(** All or nothing: [dashboard.on_sensor_data_received] either leaves the
    globals as they were, or performs the step and stores its result. *)
Lemma dashboard_all_or_nothing (now : Z) (msg : gmap string pyval) (w : World) :
  let out := dashboard_on_sensor_data_received float_of_str int_of_str now msg w in
  snd out = w \/
  exists (inputs : Inputs) (n : Z) (t : Q),
    out = (Ok tt,
           {| hvac_sim := fst (step (hvac_sim w) inputs);
              data_deque :=
                deque_append data_deque_maxlen (data_deque w)
                  {| entry_result := snd (step (hvac_sim w) inputs);
                     entry_timestamp := now;
                     entry_N_occ := n;
                     entry_T_set := t |} |}).
Proof.
  parse_cases; try (left; reflexivity).
  right. eexists _, _, _. reflexivity.
Qed.

Lemma run_live_all_or_nothing (msg : gmap string pyval) (w : World) :
  let out := run_live_on_sensor_data_received float_of_str int_of_str msg w in
  snd out = w \/
  exists inputs : Inputs,
    out = (Ok tt,
           {| hvac_sim := fst (step (hvac_sim w) inputs);
              data_deque := data_deque w |}).
Proof.
  parse_cases; try (left; reflexivity).
  right. eexists. reflexivity.
Qed.

(** A message without one of the required keys changes nothing. *)
Lemma dashboard_missing_key_unchanged (now : Z) (msg : gmap string pyval)
    (w : World) :
  msg !! "T_out" = None \/ msg !! "N_occ" = None \/ msg !! "T_set" = None ->
  snd (dashboard_on_sensor_data_received float_of_str int_of_str now msg w) = w.
Proof.
  intros H. parse_cases; try reflexivity.
  exfalso. unfold getitem in *.
  destruct H as [H|[H|H]]; rewrite H in *; discriminate.
Qed.

Lemma run_live_missing_key_unchanged (msg : gmap string pyval) (w : World) :
  msg !! "T_out" = None \/ msg !! "N_occ" = None \/ msg !! "T_set" = None ->
  snd (run_live_on_sensor_data_received float_of_str int_of_str msg w) = w.
Proof.
  intros H. parse_cases; try reflexivity.
  exfalso. unfold getitem in *.
  destruct H as [H|[H|H]]; rewrite H in *; discriminate.
Qed.

(** A required field holding a string that is not a number changes
    nothing. *)
Lemma dashboard_bad_string_unchanged (now : Z) (msg : gmap string pyval)
    (w : World) :
  (exists s, msg !! "T_out" = Some (PStr s) /\ float_of_str s = None) \/
  (exists s, msg !! "N_occ" = Some (PStr s) /\ int_of_str s = None) \/
  (exists s, msg !! "T_set" = Some (PStr s) /\ float_of_str s = None) ->
  snd (dashboard_on_sensor_data_received float_of_str int_of_str now msg w) = w.
Proof.
  intros H. parse_cases; try reflexivity.
  exfalso. unfold getitem in *.
  destruct H as [(s & H & Hs)|[(s & H & Hs)|(s & H & Hs)]];
    rewrite H in *;
    match goal with
    | E : Ok (PStr s) = Ok ?v |- _ => injection E as <-
    end;
    cbn in *; rewrite Hs in *; discriminate.
Qed.

(** Bad-input resilience: a message without a required key between two
    calls leaves the second call with the globals of the first. *)
Lemma dashboard_skips_missing_key (now now' : Z) (bad good : gmap string pyval)
    (w : World) :
  bad !! "T_out" = None \/ bad !! "N_occ" = None \/ bad !! "T_set" = None ->
  dashboard_on_sensor_data_received float_of_str int_of_str now' good
    (snd (dashboard_on_sensor_data_received float_of_str int_of_str now bad w)) =
  dashboard_on_sensor_data_received float_of_str int_of_str now' good w.
Proof.
  intros H. rewrite dashboard_missing_key_unchanged by exact H. reflexivity.
Qed.

(** A value of a scalar message reaches [float] or [int] as a scalar. *)
Lemma getitem_scalar (msg : gmap string pyval) (k : string) (v : pyval) :
  scalar_values msg -> getitem msg k = Ok v ->
  v <> PNone /\ v <> PList /\ v <> PDict.
Proof.
  intros Hs. unfold getitem. destruct (msg !! k) as [v'|] eqn:E; [|discriminate].
  intros [= <-]. exact (Hs k v' E).
Qed.

Lemma get_scalar (msg : gmap string pyval) (k : string) (q : Q) :
  scalar_values msg ->
  get msg k (PFloat q) <> PNone /\ get msg k (PFloat q) <> PList /\
  get msg k (PFloat q) <> PDict.
Proof.
  intros Hs. unfold get. destruct (msg !! k) as [v'|] eqn:E; cbn.
  - exact (Hs k v' E).
  - repeat split; discriminate.
Qed.

(** When every value of the message is a bool, a number or a string, the
    handler of [dashboard.on_sensor_data_received] catches whatever the
    conversions raise: the callback returns normally. *)
Lemma dashboard_scalar_returns (now : Z) (msg : gmap string pyval) (w : World) :
  scalar_values msg ->
  fst (dashboard_on_sensor_data_received float_of_str int_of_str now msg w) = Ok tt.
Proof.
  intros Hs.
  pose proof (get_scalar msg "I_sol" 0.0 Hs) as (?&?&?).
  parse_cases; try reflexivity; exfalso;
    repeat match goal with
    | H : getitem msg _ = Ok ?v |- _ =>
        destruct (getitem_scalar msg _ v Hs H) as (?&?&?); clear H
    end;
    match goal with
    | H : getitem _ _ = Raise _ |- _ =>
        unfold getitem in H; destruct (_ !! _) in H; discriminate H
    | H : py_int _ _ = Raise _ |- _ =>
        apply py_int_scalar in H; [discriminate|assumption..]
    | H : py_float _ _ = Raise _ |- _ =>
        apply py_float_scalar in H; [discriminate|assumption..]
    end.
Qed.

(** C7 (the code departs from the claim).  The decoded payload
    [{"T_out": null, "N_occ": 3, "T_set": 24.0}] has a non-numeric value for
    a required field.  [float(None)] raises TypeError, which
    [except (KeyError, ValueError)] does not catch: in both callbacks the
    exception leaves the callback instead of being reported there, whatever
    the globals are (they are left unchanged). *)
Theorem null_field_escapes_handler (now : Z) (w : World) :
  dashboard_on_sensor_data_received float_of_str int_of_str now
    null_T_out_msg w = (Raise TypeError, w) /\
  run_live_on_sensor_data_received float_of_str int_of_str
    null_T_out_msg w = (Raise TypeError, w).
Proof. split; reflexivity. Qed.

(** By contrast a message that lacks the setpoint is reported and skipped,
    and a complete numeric one is stepped and stored. *)
Lemma missing_T_set_msg_skipped (now : Z) (w : World) :
  dashboard_on_sensor_data_received float_of_str int_of_str now
    missing_T_set_msg w = (Ok tt, w).
Proof. reflexivity. Qed.

Lemma valid_msg_stored (now : Z) (w : World) :
  dashboard_on_sensor_data_received float_of_str int_of_str now valid_msg w =
    (Ok tt,
     {| hvac_sim := fst (step (hvac_sim w) scenario_inputs);
        data_deque :=
          deque_append data_deque_maxlen (data_deque w)
            {| entry_result := snd (step (hvac_sim w) scenario_inputs);
               entry_timestamp := now;
               entry_N_occ := 5;
               entry_T_set := 24.0 |} |}).
Proof. reflexivity. Qed.

End IngestionFacts.

(** ** Construction *)

(** C8, as stated, fails: a parameter set with [R_oa = -1.0] is constructed
    without error, and a simulator is created from it. *)
Lemma nonpositive_params_accepted :
  let p := mkParams (-1.0) 1.6 2.0 3000.0 15000.0 3.5 1.2 2.5 240.0 0.4
             0.005 1.006 3.5 3.0 in
  R_oa p <= 0 /\
  ~ Params_positive p /\
  Params_init (-1.0) 1.6 2.0 3000.0 15000.0 3.5 1.2 2.5 240.0 0.4
    0.005 1.006 3.5 3.0 = Ok p /\
  (forall e : exn,
     Params_init (-1.0) 1.6 2.0 3000.0 15000.0 3.5 1.2 2.5 240.0 0.4
       0.005 1.006 3.5 3.0 <> Raise e) /\
  params (HVACSimulator_init dashboard_initial_state p 300) = p.
Proof.
  cbv zeta. split; [discriminate|]. split.
  - intros [H _]. vm_compute in H. discriminate H.
  - split; [reflexivity|]. split; [discriminate | reflexivity].
Qed.

(** C8, amended.  Constructing a parameter set checks nothing: for every
    choice of the constants, non-positive ones included, [Params(...)]
    succeeds and stores them as given, and [HVACSimulator(...)] accepts the
    result as it is. *)
Theorem params_construction_unchecked
    (R_oa R_wz R_ow C_z C_w COP P_fan_des m_air_des V ACH E_occ c_p
     COP_cool COP_heat : Q) :
  let p := mkParams R_oa R_wz R_ow C_z C_w COP P_fan_des m_air_des V ACH
             E_occ c_p COP_cool COP_heat in
  Params_init R_oa R_wz R_ow C_z C_w COP P_fan_des m_air_des V ACH
    E_occ c_p COP_cool COP_heat = Ok p /\
  (forall (st : State) (dt : Z),
     params (HVACSimulator_init st p dt) = p /\
     state (HVACSimulator_init st p dt) = st /\
     dt_s (HVACSimulator_init st p dt) = dt).
Proof. cbv zeta. repeat split. Qed.

(** ** CO2 decay without occupants *)

(** With nobody in the zone one step scales the distance to the outdoor
    baseline by [1 - ACH * dt / 3600]. *)
Lemma step_CO2_gap (self : HVACSimulator) (inp : Inputs) :
  N_occ inp == 0 -> ~ V (params self) == 0 ->
  res_CO2_z (snd (step self inp)) - 400.0 ==
    (1 - ACH (params self) * inject_Z (dt_s self) / 3600.0) *
    (CO2_z (state self) - 400.0).
Proof.
  intros HN HV. cbn [step snd res_CO2_z euler_update CO2_z].
  unfold rhs. destruct (hvac_power _ _ _) as [Qh Pe]. cbn [dCO2].
  rewrite HN. field. exact HV.
Qed.

Lemma step_CO2_closer (self : HVACSimulator) (inp : Inputs) :
  N_occ inp == 0 -> 0 < V (params self) ->
  0 <= ACH (params self) * inject_Z (dt_s self) / 3600.0 <= 1 ->
  Qabs (res_CO2_z (snd (step self inp)) - 400.0) <=
    Qabs (CO2_z (state self) - 400.0) /\
  (400.0 <= CO2_z (state self) -> 400.0 <= res_CO2_z (snd (step self inp))).
Proof.
  intros HN HV [Ha0 Ha1].
  assert (Hgap := step_CO2_gap self inp HN ltac:(lra)).
  set (a := ACH (params self) * inject_Z (dt_s self) / 3600.0) in *.
  set (c' := res_CO2_z (snd (step self inp))) in *.
  set (c := CO2_z (state self)) in *.
  split.
  - rewrite Hgap, Qabs_Qmult, (Qabs_pos (1 - a)) by lra.
    pose proof (Qabs_nonneg (c - 400.0)) as Hn.
    assert (H : 0 <= a * Qabs (c - 400.0)) by (apply Qmult_le_0_compat; assumption).
    lra.
  - intros Hc.
    assert (H : 0 <= (1 - a) * (c - 400.0)) by (apply Qmult_le_0_compat; lra).
    lra.
Qed.

(** The factor [ACH * dt / 3600] lies in [[0, 1]] under the assumptions of
    the decay property. *)
Lemma decay_factor_range (p : Params) (dt : Z) :
  0 < ACH p -> (0 <= dt)%Z -> ACH p * inject_Z dt / 3600.0 <= 1 ->
  0 <= ACH p * inject_Z dt / 3600.0 <= 1.
Proof.
  intros HA Hdt Hle. split; [|exact Hle].
  assert (Hd : 0 <= inject_Z dt).
  { change 0 with (inject_Z 0). rewrite <- Zle_Qle. exact Hdt. }
  unfold Qdiv. apply Qmult_le_0_compat; [|discriminate].
  apply Qmult_le_0_compat; lra.
Qed.

Lemma steps_CO2_decay (inputs : list Inputs) (self : HVACSimulator) :
  0 < V (params self) ->
  0 <= ACH (params self) * inject_Z (dt_s self) / 3600.0 <= 1 ->
  Forall (fun inp => N_occ inp == 0) inputs ->
  let cs := CO2_z (state self) :: map res_CO2_z (fst (steps self inputs)) in
  nonincreasing (map (fun c => Qabs (c - 400.0)) cs) /\
  (400.0 <= CO2_z (state self) -> Forall (fun c => 400.0 <= c) cs).
Proof.
  revert self. induction inputs as [|inp rest IH]; intros self HV Ha Hocc.
  - cbn. split; [exact I|]. intros H. constructor; [exact H | constructor].
  - apply Forall_cons in Hocc as [HN Hocc].
    destruct (step_CO2_closer self inp HN HV Ha) as [Hcl Hge].
    specialize (IH (fst (step self inp)) HV Ha Hocc).
    cbv zeta in IH |- *. destruct IH as [IHm IHb].
    rewrite steps_cons. cbn [fst map]. split.
    + cbn [nonincreasing]. split; [exact Hcl | exact IHm].
    + intros Hc. constructor; [exact Hc|]. apply IHb. apply Hge. exact Hc.
Qed.

(** With nobody in the zone the steady value is the outdoor baseline. *)
Lemma steps_CO2_closed_form_empty (inputs : list Inputs)
    (self : HVACSimulator) :
  ~ V (params self) == 0 ->
  Forall (fun inp => N_occ inp == 0) inputs ->
  CO2_z (state (snd (steps self inputs))) - 400.0 ==
    Qpow (1 - ACH (params self) * inject_Z (dt_s self) / 3600.0)
      (length inputs) *
    (CO2_z (state self) - 400.0).
Proof.
  revert self. induction inputs as [|inp rest IH]; intros self HV Hall.
  - cbn [steps snd length Qpow]. ring.
  - apply Forall_cons in Hall as [HN Hall].
    rewrite steps_cons. cbn [snd].
    rewrite (IH (fst (step self inp)) HV Hall).
    rewrite step_params, step_dt_s.
    change (CO2_z (state (fst (step self inp))))
      with (res_CO2_z (snd (step self inp))).
    rewrite (step_CO2_gap self inp HN HV).
    cbn [length Qpow]. ring.
Qed.

Lemma Qpow_nonneg (q : Q) (n : nat) : 0 <= q -> 0 <= Qpow q n.
Proof.
  intros Hq. induction n as [|n IH]; cbn [Qpow].
  - discriminate.
  - apply Qmult_le_0_compat; assumption.
Qed.

(** C9, as stated, fails on the code's binary64 arithmetic: with the
    defaults but [ACH = 12.0], [dt_s = 300] (so that [ACH * dt / 3600] is
    exactly 1), nobody in the zone and [CO2_z = 637.0], all hypotheses
    hold and one step returns a level strictly below 400 (it is
    399.99999999999994). *)
Lemma CO2_drops_below_baseline_binary64 :
  let p := Binary64.Params_ACH_12 in
  let self := Binary64.HVACSimulator_init Binary64.state_637 p 300 in
  let inp := Binary64.empty_room in
  Binary64.N_occ inp = 0%Z /\
  Binary64.Params_positive p = true /\
  PrimFloat.leb
    (Binary64.ACH p * Binary64.float_of_int 300 / 3600.0)%float 1 = true /\
  PrimFloat.leb 400.0 (Binary64.CO2_z (Binary64.state self)) = true /\
  Binary64.CO2_z (Binary64.state (fst (Binary64.step self inp))) =
    0x1.8ffffffffffffp+8%float /\
  PrimFloat.ltb
    (Binary64.CO2_z (Binary64.state (fst (Binary64.step self inp))))
    400.0 = true.
Proof.
  cbv zeta. repeat split; vm_compute; reflexivity.
Qed.

(** C9, amended.  With no occupants ([N_occ = 0] in every input), positive
    parameters, a non-negative step size and [ACH * dt / 3600 <= 1], the
    update the code computes scales the distance of [CO2_z] to the outdoor
    baseline of 400 ppm by the factor [1 - ACH * dt / 3600], which lies
    between 0 and 1: in exact arithmetic the distance [|CO2_z - 400|] never
    grows from one step to the next and after [k] steps
    [CO2_z - 400 = (1 - ACH * dt / 3600) ^ k * (CO2_z0 - 400)], so the level
    keeps the side of 400 it started on.  The code follows this up to the
    rounding of its binary64 operations, which at [ACH * dt / 3600 = 1] can
    put the level one unit in the last place below 400. *)
Theorem CO2_decays_to_baseline (p : Params) (dt : Z) (st0 : State)
    (inputs : list Inputs) :
  Params_positive p -> (0 <= dt)%Z ->
  ACH p * inject_Z dt / 3600.0 <= 1 ->
  Forall (fun inp => N_occ inp == 0) inputs ->
  let cs :=
    CO2_z st0 ::
    map res_CO2_z (fst (steps (HVACSimulator_init st0 p dt) inputs)) in
  let factor := 1 - ACH p * inject_Z dt / 3600.0 in
  nonincreasing (map (fun c => Qabs (c - 400.0)) cs) /\
  0 <= factor <= 1 /\
  0 <= Qpow factor (length inputs) /\
  CO2_z (state (snd (steps (HVACSimulator_init st0 p dt) inputs))) - 400.0 ==
    Qpow factor (length inputs) * (CO2_z st0 - 400.0).
Proof.
  intros (_ & _ & _ & _ & _ & _ & _ & _ & HV & HA & _) Hdt Hle Hocc.
  cbv zeta.
  pose proof (decay_factor_range p dt HA Hdt Hle) as Hrange.
  split; [|split; [|split]].
  - apply (steps_CO2_decay inputs (HVACSimulator_init st0 p dt));
      assumption.
  - lra.
  - apply Qpow_nonneg. lra.
  - apply (steps_CO2_closed_form_empty inputs (HVACSimulator_init st0 p dt));
      [cbn [params HVACSimulator_init]; lra | exact Hocc].
Qed.

Lemma CO2_decays_to_baseline_witness :
  let inputs := [empty_room_inputs; empty_room_inputs] in
  let cs :=
    CO2_z dashboard_initial_state ::
    map res_CO2_z
      (fst (steps (HVACSimulator_init dashboard_initial_state default_Params 300)
              inputs)) in
  let factor := 1 - ACH default_Params * inject_Z 300 / 3600.0 in
  nonincreasing (map (fun c => Qabs (c - 400.0)) cs) /\
  0 <= factor <= 1 /\
  0 <= Qpow factor (length inputs) /\
  CO2_z (state (snd (steps (HVACSimulator_init dashboard_initial_state
                              default_Params 300) inputs))) - 400.0 ==
    Qpow factor (length inputs) * (CO2_z dashboard_initial_state - 400.0).
Proof.
  apply (CO2_decays_to_baseline default_Params 300 dashboard_initial_state
           [empty_room_inputs; empty_room_inputs]).
  - repeat split.
  - lia.
  - vm_compute. discriminate.
  - repeat constructor.
Defined.

(** ** The batch loop against the stateful simulator *)

(** The records already collected stay in front of the new ones. *)
Lemma run_simulation_loop_rec (p : Params) (dt : Z) (rows : list (Z * Inputs)) :
  forall (st : State) (energy : Q) (rec : list Rec),
    run_simulation_loop p dt rows st energy rec =
      rec ++ run_simulation_loop p dt rows st energy [].
Proof.
  induction rows as [|[t row] rows IH]; intros st energy rec.
  - cbn. rewrite app_nil_r. reflexivity.
  - cbn [run_simulation_loop]. rewrite IH.
    rewrite (IH _ _ ([] ++ _)). cbn [app].
    rewrite <- (assoc_L (++)). reflexivity.
Qed.

(** The loop started in any state with any energy does what a simulator
    holding that state and energy does. *)
Lemma run_simulation_loop_steps (p : Params) (dt : Z) (rows : list (Z * Inputs)) :
  forall (st : State) (energy : Q),
    map rec_values (run_simulation_loop p dt rows st energy []) =
      fst (steps {| state := st; params := p; dt_s := dt;
                    cumulative_energy_kwh := energy |} (map snd rows)) /\
    map rec_time (run_simulation_loop p dt rows st energy []) = map fst rows.
Proof.
  induction rows as [|[t row] rows IH]; intros st energy.
  - split; reflexivity.
  - cbn [run_simulation_loop map snd fst]. rewrite run_simulation_loop_rec.
    cbn [app map]. rewrite steps_cons. cbn [fst].
    destruct (IH (euler_update st (rhs st row p) dt)
                (energy + P_e (rhs st row p) * inject_Z dt / 3600.0))
      as [IHv IHt].
    rewrite IHv, IHt. split; reflexivity.
Qed.

(** C10.  The batch engine and the stateful engine agree: for every input
    sequence, parameter set, step size and initial state, the loop of
    [run_simulation] started with zero energy records, row by row, the same
    [T_z], [T_w], [CO2_z], [P_e] and cumulative energy as repeated calls of
    [step] on a simulator constructed with that initial state; in
    particular [run_simulation] on a non-empty frame returns what stepping a
    simulator started at [[T0, T0, 600.0]] returns. *)
Theorem batch_equals_stateful (p : Params) (dt : Z)
    (rows : list (Z * Inputs)) :
  (forall st0 : State,
     map rec_values (run_simulation_loop p dt rows st0 0.0 []) =
       fst (steps (HVACSimulator_init st0 p dt) (map snd rows)) /\
     map rec_time (run_simulation_loop p dt rows st0 0.0 []) = map fst rows) /\
  (forall (t : Z) (row : Inputs),
     exists recs : list Rec,
       run_simulation ((t, row) :: rows) p dt = Ok recs /\
       map rec_values recs =
         fst (steps
                (HVACSimulator_init
                   {| T_z := T_set row; T_w := T_set row; CO2_z := 600.0 |}
                   p dt)
                (row :: map snd rows))).
Proof.
  split.
  - intros st0. apply run_simulation_loop_steps.
  - intros t row. eexists. split; [reflexivity|].
    apply (run_simulation_loop_steps p dt ((t, row) :: rows)).
Qed.

(** * Further properties of the code *)

(** ** hvac_sim/physics.py *)

(** X1.  For a positive air flow, specific heat, efficiency and fan power,
    [hvac_power] reports zero electrical power exactly when the zone is at
    the setpoint; at any other temperature, however close, the power is at
    least the fan power, so it is never strictly between zero and the fan
    power. *)
Theorem hvac_power_zero_iff_at_setpoint (Tz Tset : Q) (p : Params) :
  0 < m_air_des p -> 0 < c_p p -> 0 < COP p -> 0 < P_fan_des p ->
  (snd (hvac_power Tz Tset p) == 0 <-> Tz == Tset) /\
  (~ Tz == Tset -> P_fan_des p <= snd (hvac_power Tz Tset p)).
Proof.
  intros Hm Hc HCOP Hfan.
  assert (Hinv : 0 < / COP p) by (apply Qinv_lt_0_compat; exact HCOP).
  assert (Hoff : ~ Tz == Tset -> P_fan_des p <= snd (hvac_power Tz Tset p)).
  { intros Hne. destruct (Q_dec Tz Tset) as [[Hlt|Hgt]|Heq]; [| |contradiction].
    - rewrite hvac_power_heating by exact Hlt. cbn [snd]. unfold Qdiv.
      assert (H : 0 <= Qabs (m_air_des p * c_p p * (Tz - Tset)) * / COP p)
        by (apply Qmult_le_0_compat; [apply Qabs_nonneg | lra]).
      lra.
    - rewrite hvac_power_cooling by exact Hgt. cbn [snd]. unfold Qdiv.
      assert (HQ : 0 < m_air_des p * c_p p * (Tz - Tset))
        by (apply load_pos; lra).
      assert (H : 0 <= m_air_des p * c_p p * (Tz - Tset) * / COP p)
        by (apply Qmult_le_0_compat; lra).
      lra. }
  split; [|exact Hoff]. split.
  - intros H0. destruct (Qeq_dec Tz Tset) as [Heq|Hne]; [exact Heq|].
    specialize (Hoff Hne). lra.
  - intros Heq. rewrite hvac_power_idle by exact Heq. reflexivity.
Qed.

Lemma hvac_power_zero_iff_at_setpoint_witness :
  (snd (hvac_power 18.0 24.0 default_Params) == 0 <-> 18.0 == 24.0) /\
  (~ 18.0 == 24.0 ->
   P_fan_des default_Params <= snd (hvac_power 18.0 24.0 default_Params)).
Proof.
  apply (hvac_power_zero_iff_at_setpoint 18.0 24.0 default_Params);
    reflexivity.
Defined.

(** X2.  Away from the setpoint the electrical power is
    [m_air * c_p * |T_z - T_set| / COP + P_fan]: it depends on the distance
    to the setpoint only, so a deviation [d] above the setpoint (cooling)
    costs what the same deviation below it (heating) costs. *)
Theorem hvac_power_symmetric (Tset d : Q) (p : Params) :
  0 < m_air_des p -> 0 < c_p p -> 0 < COP p ->
  (~ d == 0 ->
   snd (hvac_power (Tset + d) Tset p) ==
     m_air_des p * c_p p * Qabs d / COP p + P_fan_des p) /\
  snd (hvac_power (Tset + d) Tset p) == snd (hvac_power (Tset - d) Tset p).
Proof.
  intros Hm Hc HCOP.
  assert (Hform : forall e, ~ e == 0 ->
    snd (hvac_power (Tset + e) Tset p) ==
      m_air_des p * c_p p * Qabs e / COP p + P_fan_des p).
  { intros e He. destruct (Q_dec e 0) as [[Hlt|Hgt]|Heq]; [| |contradiction].
    - rewrite hvac_power_heating by lra. cbn [snd].
      assert (HQ : m_air_des p * c_p p * (Tset + e - Tset) < 0)
        by (apply load_neg; lra).
      rewrite (Qabs_neg (m_air_des p * c_p p * (Tset + e - Tset))) by lra.
      rewrite (Qabs_neg e) by lra.
      field. lra.
    - rewrite hvac_power_cooling by lra. cbn [snd].
      rewrite (Qabs_pos e) by lra. field. lra. }
  split; [exact (Hform d)|].
  destruct (Qeq_dec d 0) as [Heq|Hne].
  - rewrite !hvac_power_idle by lra. reflexivity.
  - rewrite (Hform d Hne).
    assert (Hopp : snd (hvac_power (Tset - d) Tset p) ==
                   snd (hvac_power (Tset + - d) Tset p)).
    { destruct (Q_dec d 0) as [[Hlt|Hgt]|Heq]; [| |contradiction].
      - rewrite !hvac_power_cooling by lra. cbn [snd]. field. lra.
      - rewrite !hvac_power_heating by lra. cbn [snd].
        rewrite !Qabs_neg;
          try (assert (H : 0 < m_air_des p * c_p p * d)
                 by (apply load_pos; lra); lra).
        field. lra. }
    rewrite Hopp, (Hform (- d)) by lra.
    rewrite Qabs_opp. reflexivity.
Qed.

Lemma hvac_power_symmetric_witness :
  (~ 2.0 == 0 ->
   snd (hvac_power (24.0 + 2.0) 24.0 default_Params) ==
     m_air_des default_Params * c_p default_Params * Qabs 2.0
       / COP default_Params + P_fan_des default_Params) /\
  snd (hvac_power (24.0 + 2.0) 24.0 default_Params) ==
    snd (hvac_power (24.0 - 2.0) 24.0 default_Params).
Proof.
  apply (hvac_power_symmetric 24.0 2.0 default_Params); reflexivity.
Defined.

(** ** hvac_sim/simulator.py *)

(** The simulator after a list of calls, one call unfolded. *)
Lemma steps_cons_final (self : HVACSimulator) (inp : Inputs)
    (rest : list Inputs) :
  snd (steps self (inp :: rest)) = snd (steps (fst (step self inp)) rest).
Proof. rewrite steps_cons. reflexivity. Qed.

(** One step from rest stays at rest and draws no power. *)
Lemma step_at_rest (T : Q) (self : HVACSimulator) (inp : Inputs) :
  at_rest T inp ->
  T_z (state self) == T -> T_w (state self) == T ->
  res_T_z (snd (step self inp)) == T /\
  res_T_w (snd (step self inp)) == T /\
  res_P_e (snd (step self inp)) == 0 /\
  res_E_KWh_cumulative (snd (step self inp)) == cumulative_energy_kwh self.
Proof.
  intros (Hout & Hset & Hocc & Hint & Hsol) Hz Hw.
  cbn [step snd res_T_z res_T_w res_P_e res_E_KWh_cumulative euler_update
       T_z T_w].
  unfold rhs. rewrite Hint.
  rewrite (hvac_power_idle (T_z (state self)) (T_set inp) (params self))
    by (rewrite Hz, Hset; reflexivity).
  cbn [dTz dTw P_e default]. rewrite Hout, Hocc, Hz, Hw, Hsol.
  unfold Qdiv. repeat split; ring.
Qed.

(** X3.  Thermal rest is a fixed point of the integrator: when zone and
    wall are at [T] and every input has outdoor air and setpoint at [T], no
    occupants and no sun, then after any number of steps every result still
    has [T_z = T_w = T] and [P_e = 0], and the cumulative energy has not
    moved. *)
Theorem rest_is_fixed_point (T : Q) (inputs : list Inputs)
    (self : HVACSimulator) :
  Params_positive (params self) ->
  T_z (state self) == T -> T_w (state self) == T ->
  Forall (at_rest T) inputs ->
  Forall (fun r =>
            res_T_z r == T /\ res_T_w r == T /\ res_P_e r == 0 /\
            res_E_KWh_cumulative r == cumulative_energy_kwh self)
    (fst (steps self inputs)).
Proof.
  intros _. revert self.
  induction inputs as [|inp rest IH]; intros self Hz Hw Hall.
  - constructor.
  - apply Forall_cons in Hall as [Hinp Hall].
    destruct (step_at_rest T self inp Hinp Hz Hw) as (Hz' & Hw' & HP & HE).
    rewrite steps_cons. cbn [fst]. constructor.
    + repeat split; assumption.
    + specialize (IH (fst (step self inp)) Hz' Hw' Hall).
      eapply Forall_impl; [exact IH|].
      intros r (H1 & H2 & H3 & H4). repeat split; try assumption.
      rewrite H4. exact HE.
Qed.

Lemma rest_is_fixed_point_witness :
  Forall (fun r =>
            res_T_z r == 24.0 /\ res_T_w r == 24.0 /\ res_P_e r == 0 /\
            res_E_KWh_cumulative r ==
              cumulative_energy_kwh
                (HVACSimulator_init {| T_z := 24.0; T_w := 24.0; CO2_z := 600.0 |}
                   default_Params 300))
    (fst (steps
            (HVACSimulator_init {| T_z := 24.0; T_w := 24.0; CO2_z := 600.0 |}
               default_Params 300)
            [rest_inputs 24.0; rest_inputs 24.0])).
Proof.
  apply (rest_is_fixed_point 24.0 [rest_inputs 24.0; rest_inputs 24.0]
           (HVACSimulator_init {| T_z := 24.0; T_w := 24.0; CO2_z := 600.0 |}
              default_Params 300)).
  - repeat split.
  - reflexivity.
  - reflexivity.
  - repeat constructor.
Defined.

(** With a constant head count one step scales the distance of the CO2
    level to its steady value by [1 - ACH * dt / 3600]. *)
Lemma step_CO2_gap_steady (self : HVACSimulator) (inp : Inputs) (n : Q) :
  N_occ inp == n ->
  ~ V (params self) == 0 -> ~ ACH (params self) == 0 ->
  res_CO2_z (snd (step self inp)) - CO2_steady (params self) n ==
    (1 - ACH (params self) * inject_Z (dt_s self) / 3600.0) *
    (CO2_z (state self) - CO2_steady (params self) n).
Proof.
  intros HN HV HA. cbn [step snd res_CO2_z euler_update CO2_z].
  unfold rhs, CO2_steady. destruct (hvac_power _ _ _) as [Qh Pe]. cbn [dCO2].
  rewrite HN. field. split; assumption.
Qed.

Lemma steps_CO2_closed_form (n : Q) (inputs : list Inputs)
    (self : HVACSimulator) :
  ~ V (params self) == 0 -> ~ ACH (params self) == 0 ->
  Forall (fun inp => N_occ inp == n) inputs ->
  CO2_z (state (snd (steps self inputs))) - CO2_steady (params self) n ==
    Qpow (1 - ACH (params self) * inject_Z (dt_s self) / 3600.0)
      (length inputs) *
    (CO2_z (state self) - CO2_steady (params self) n).
Proof.
  revert self. induction inputs as [|inp rest IH]; intros self HV HA Hall.
  - cbn. ring.
  - apply Forall_cons in Hall as [HN Hall].
    rewrite steps_cons_final.
    rewrite (IH (fst (step self inp)) HV HA Hall).
    rewrite step_params, step_dt_s.
    change (CO2_z (state (fst (step self inp))))
      with (res_CO2_z (snd (step self inp))).
    rewrite (step_CO2_gap_steady self inp n HN HV HA).
    cbn [length Qpow]. ring.
Qed.

(** X4.  With a constant head count [n] the CO2 level follows a geometric
    law: for positive parameters, after [k] steps its distance to the steady
    value [400 + (E_occ * n / 1000 * 1e6) / (ACH * V / 3600)] is the initial
    distance times [(1 - ACH * dt / 3600) ^ k], whatever the temperatures,
    setpoints and gains of the inputs are. *)
Theorem CO2_geometric (p : Params) (dt : Z) (st0 : State) (n : Q)
    (inputs : list Inputs) :
  Params_positive p ->
  Forall (fun inp => N_occ inp == n) inputs ->
  CO2_z (state (snd (steps (HVACSimulator_init st0 p dt) inputs)))
    - CO2_steady p n ==
  Qpow (1 - ACH p * inject_Z dt / 3600.0) (length inputs) *
  (CO2_z st0 - CO2_steady p n).
Proof.
  intros (_ & _ & _ & _ & _ & _ & _ & _ & HV & HA & _) Hall.
  apply (steps_CO2_closed_form n inputs (HVACSimulator_init st0 p dt));
    cbn [params HVACSimulator_init]; try lra.
  exact Hall.
Qed.

Lemma CO2_geometric_witness :
  CO2_z (state (snd (steps (HVACSimulator_init dashboard_initial_state
                              default_Params 300)
                       [scenario_inputs; scenario_inputs])))
    - CO2_steady default_Params 5 ==
  Qpow (1 - ACH default_Params * inject_Z 300 / 3600.0)
    (length [scenario_inputs; scenario_inputs]) *
  (CO2_z dashboard_initial_state - CO2_steady default_Params 5).
Proof.
  apply (CO2_geometric default_Params 300 dashboard_initial_state 5
           [scenario_inputs; scenario_inputs]).
  - repeat split.
  - repeat constructor.
Defined.

(** X5.  The direction of the CO2 update: for positive parameters, a
    non-negative step size and a non-negative head count, a level at or
    below the outdoor 400 ppm is never lowered by a step; and with nobody
    in the zone a level at or above 400 ppm is never raised. *)
Theorem CO2_direction (self : HVACSimulator) (inp : Inputs) :
  Params_positive (params self) -> (0 <= dt_s self)%Z -> 0 <= N_occ inp ->
  (CO2_z (state self) <= 400.0 ->
   CO2_z (state self) <= res_CO2_z (snd (step self inp))) /\
  (N_occ inp == 0 -> 400.0 <= CO2_z (state self) ->
   res_CO2_z (snd (step self inp)) <= CO2_z (state self)).
Proof.
  intros (_ & _ & _ & _ & _ & _ & _ & _ & HV & HA & HE & _) Hdt HN.
  assert (Hd : 0 <= inject_Z (dt_s self)).
  { change 0 with (inject_Z 0). rewrite <- Zle_Qle. exact Hdt. }
  assert (HiV : 0 <= / V (params self))
    by (apply Qlt_le_weak, Qinv_lt_0_compat; exact HV).
  assert (Hflow : 0 <= ACH (params self) * V (params self) / 3600.0).
  { unfold Qdiv. apply Qmult_le_0_compat; [|discriminate].
    apply Qmult_le_0_compat; lra. }
  cbn [step snd res_CO2_z euler_update CO2_z].
  unfold rhs. destruct (hvac_power _ _ _) as [Qh Pe]. cbn [dCO2].
  set (c := CO2_z (state self)).
  set (flow := ACH (params self) * V (params self) / 3600.0) in *.
  split.
  - intros Hc.
    assert (Hgen : 0 <= E_occ (params self) * N_occ inp / 1000.0 * 1e6).
    { unfold Qdiv. apply Qmult_le_0_compat; [|discriminate].
      apply Qmult_le_0_compat; [|discriminate].
      apply Qmult_le_0_compat; lra. }
    assert (Hin : 0 <= flow * (400.0 - c)) by (apply Qmult_le_0_compat; lra).
    set (gen := E_occ (params self) * N_occ inp / 1000.0 * 1e6) in *.
    assert (Hrate : 0 <= (flow * (400.0 - c) + gen) / V (params self)).
    { unfold Qdiv. apply Qmult_le_0_compat; [lra | exact HiV]. }
    assert (Hstep : 0 <= (flow * (400.0 - c) + gen) / V (params self)
                         * inject_Z (dt_s self))
      by (apply Qmult_le_0_compat; assumption).
    lra.
  - intros H0 Hc. rewrite H0.
    assert (Hout : 0 <= flow * (c - 400.0)) by (apply Qmult_le_0_compat; lra).
    assert (Hnum : flow * (400.0 - c) + E_occ (params self) * 0 / 1000.0 * 1e6
                   == - (flow * (c - 400.0)))
      by (change 1e6 with (1 * (1000000 # 1)); field).
    rewrite Hnum.
    assert (Hrate : 0 <= flow * (c - 400.0) * / V (params self))
      by (apply Qmult_le_0_compat; assumption).
    assert (Hstep : 0 <= flow * (c - 400.0) * / V (params self)
                         * inject_Z (dt_s self))
      by (apply Qmult_le_0_compat; assumption).
    assert (Heq : - (flow * (c - 400.0)) / V (params self)
                  * inject_Z (dt_s self) ==
                  - (flow * (c - 400.0) * / V (params self)
                     * inject_Z (dt_s self)))
      by (unfold Qdiv; ring).
    rewrite Heq. lra.
Qed.

Lemma CO2_direction_witness :
  (CO2_z (state (HVACSimulator_init {| T_z := 18.0; T_w := 19.0;
                                       CO2_z := 380.0 |}
                   default_Params 300)) <= 400.0 ->
   CO2_z (state (HVACSimulator_init {| T_z := 18.0; T_w := 19.0;
                                       CO2_z := 380.0 |}
                   default_Params 300)) <=
   res_CO2_z
     (snd (step (HVACSimulator_init {| T_z := 18.0; T_w := 19.0;
                                       CO2_z := 380.0 |}
                   default_Params 300) empty_room_inputs))) /\
  (N_occ empty_room_inputs == 0 ->
   400.0 <= CO2_z (state dashboard_simulator) ->
   res_CO2_z (snd (step dashboard_simulator empty_room_inputs)) <=
   CO2_z (state dashboard_simulator)).
Proof.
  split.
  - apply (CO2_direction
             (HVACSimulator_init {| T_z := 18.0; T_w := 19.0; CO2_z := 380.0 |}
                default_Params 300) empty_room_inputs).
    + repeat split.
    + cbn. lia.
    + discriminate.
  - apply (CO2_direction dashboard_simulator empty_room_inputs).
    + repeat split.
    + cbn. lia.
    + discriminate.
Defined.

(** X7.  Energy accounting: after any list of steps the cumulative energy
    of the simulator is the energy it started with plus the sum of the
    reported powers times [dt_s / 3600]. *)
Theorem energy_is_sum_of_powers (inputs : list Inputs) (self : HVACSimulator) :
  cumulative_energy_kwh (snd (steps self inputs)) ==
    cumulative_energy_kwh self +
    Qsum (map res_P_e (fst (steps self inputs))) * inject_Z (dt_s self)
      / 3600.0.
Proof.
  revert self. induction inputs as [|inp rest IH]; intros self.
  - cbn [steps fst snd map Qsum fold_right]. field.
  - rewrite steps_cons. cbn [fst snd map Qsum fold_right].
    fold (Qsum (map res_P_e (fst (steps (fst (step self inp)) rest)))).
    rewrite (IH (fst (step self inp))).
    rewrite step_dt_s, step_energy.
    change (res_P_e (snd (step self inp)))
      with (P_e (rhs (state self) inp (params self))).
    field.
Qed.

(** ** hvac_sim/simulate.py: the returned frame *)

Section Shift.

Context {A : Type}.
Implicit Types (col : list A).

(** [shift] keeps the length of the column. *)
Lemma length_shift (periods : Z) col :
  length (shift periods col) = length col.
Proof.
  unfold shift. destruct (decide (0 <= periods)%Z);
    rewrite length_app, length_replicate, length_fmap;
    [rewrite length_take | rewrite length_drop]; lia.
Qed.

(** Shifting up by [k]: place [i] receives the value of place [i + k], or
    NaN when the column ends before. *)
Lemma lookup_shift_up (k : nat) col (i : nat) :
  (i < length col)%nat ->
  shift (- Z.of_nat k) col !! i = Some (col !! (i + k)%nat).
Proof.
  intros Hi. unfold shift.
  destruct (decide (0 <= - Z.of_nat k)%Z) as [Hk|Hk].
  - assert (k = 0%nat) as -> by lia. cbn [Z.of_nat Z.opp Z.to_nat].
    rewrite Nat.min_0_l, Nat.sub_0_r, take_ge by lia. cbn [replicate app].
    rewrite list_lookup_fmap, Nat.add_0_r.
    destruct (lookup_lt_is_Some_2 col i Hi) as [x ->]. reflexivity.
  - replace (Z.to_nat (- - Z.of_nat k)) with k by lia.
    destruct (decide (i + k < length col)%nat) as [Hin|Hout].
    + rewrite lookup_app_l by (rewrite length_fmap, length_drop; lia).
      rewrite list_lookup_fmap, lookup_drop, (Nat.add_comm k i).
      destruct (lookup_lt_is_Some_2 col (i + k) Hin) as [x ->]. reflexivity.
    + rewrite lookup_app_r by (rewrite length_fmap, length_drop; lia).
      rewrite length_fmap, length_drop.
      rewrite lookup_replicate_2 by lia.
      rewrite (lookup_ge_None_2 col (i + k)) by lia. reflexivity.
Qed.

End Shift.

(** The rows of an assembled frame, place by place. *)
Lemma lookup_assemble (rec : list Rec) (h1 h2 : list (option Q)) (i : nat)
    (r : Rec) (a b : option Q) :
  rec !! i = Some r -> h1 !! i = Some a -> h2 !! i = Some b ->
  assemble rec h1 h2 !! i =
    Some {| out_time := rec_time r; out_T_z := rec_T_z r;
            out_T_w := rec_T_w r; out_CO2_z := rec_CO2_z r;
            out_P_e := rec_P_e r; out_E_KWh := rec_E_KWh r;
            out_T_z_h1 := a; out_CO2_h1 := b |}.
Proof.
  intros Hr Ha Hb.
  assert (Hz : zip h1 h2 !! i = Some (a, b)).
  { rewrite lookup_zip_with, Ha, Hb. reflexivity. }
  unfold assemble. rewrite lookup_zip_with, Hr, Hz. reflexivity.
Qed.

Lemma length_assemble (rec : list Rec) (h1 h2 : list (option Q)) :
  length h1 = length rec -> length h2 = length rec ->
  length (assemble rec h1 h2) = length rec.
Proof.
  intros H1 H2. unfold assemble.
  rewrite !length_zip_with. lia.
Qed.

(** The loop records one tuple per row. *)
Lemma length_run_simulation_loop (p : Params) (dt : Z)
    (rows : list (Z * Inputs)) (st : State) (energy : Q) :
  length (run_simulation_loop p dt rows st energy []) = length rows.
Proof.
  destruct (run_simulation_loop_steps p dt rows st energy) as [_ Ht].
  apply (f_equal length) in Ht. rewrite !length_map in Ht. exact Ht.
Qed.

(** The frame in terms of the recorded tuples. *)
Lemma run_simulation_frame_rows (t : Z) (row : Inputs)
    (rest : list (Z * Inputs)) (p : Params) (dt : Z) :
  dt <> 0%Z ->
  let rec :=
    run_simulation_loop p dt ((t, row) :: rest)
      {| T_z := T_set row; T_w := T_set row; CO2_z := 600.0 |} 0.0 [] in
  run_simulation_frame ((t, row) :: rest) p dt =
    Returns (assemble rec
               (shift (- (3600 `quot` dt)) (rec_T_z <$> rec))
               (shift (- (3600 `quot` dt)) (rec_CO2_z <$> rec))).
Proof.
  intros Hdt. unfold run_simulation_frame, run_simulation.
  destruct (decide (dt = 0%Z)); [contradiction | reflexivity].
Qed.

(** Dropping the two shifted columns gives back the recorded tuples. *)
Lemma out_rec_assemble (rec : list Rec) : forall h1 h2 : list (option Q),
  length h1 = length rec -> length h2 = length rec ->
  out_rec <$> assemble rec h1 h2 = rec.
Proof.
  induction rec as [|r rec IH]; intros h1 h2 H1 H2.
  - reflexivity.
  - destruct h1 as [|a h1]; [discriminate|].
    destruct h2 as [|b h2]; [discriminate|].
    cbn in H1, H2. injection H1 as H1. injection H2 as H2.
    unfold assemble in *. cbn [zip_with fmap list_fmap].
    f_equal.
    + destruct r; reflexivity.
    + apply IH; assumption.
Qed.

(** What a returned frame is made of: the tuples recorded by the loop, and
    in each row the values of the row [hor] places further down. *)
Lemma frame_structure (df_in : list (Z * Inputs)) (p : Params) (dt : Z)
    (rows : list OutRow) :
  run_simulation_frame df_in p dt = Returns rows ->
  run_simulation df_in p dt = Ok (out_rec <$> rows) /\
  dt <> 0%Z /\
  ((0 < dt)%Z ->
   forall (i : nat) (r : OutRow), rows !! i = Some r ->
     out_T_z_h1 r =
       out_T_z <$> rows !! (i + Z.to_nat (3600 `quot` dt))%nat /\
     out_CO2_h1 r =
       out_CO2_z <$> rows !! (i + Z.to_nat (3600 `quot` dt))%nat).
Proof.
  unfold run_simulation_frame.
  destruct (run_simulation df_in p dt) as [rec|e] eqn:Hrun; [|discriminate].
  destruct (decide (dt = 0%Z)) as [|Hdt]; [discriminate|].
  intros [= <-].
  set (hor := (3600 `quot` dt)%Z).
  remember (assemble rec (shift (- hor) (rec_T_z <$> rec))
              (shift (- hor) (rec_CO2_z <$> rec))) as rows eqn:Hrows.
  assert (Hrec : out_rec <$> rows = rec).
  { rewrite Hrows. apply out_rec_assemble;
      rewrite length_shift, length_fmap; reflexivity. }
  split; [rewrite Hrec; reflexivity|]. split; [exact Hdt|].
  intros Hpos i r Hi.
  assert (Hhor : (0 <= hor)%Z) by (apply Z.quot_pos; lia).
  assert (Hproj : forall (f : Rec -> Q) (j : nat),
    f <$> rec !! j = (fun x => f (out_rec x)) <$> rows !! j).
  { intros f j. rewrite <- Hrec, list_lookup_fmap.
    destruct (rows !! j); reflexivity. }
  assert (Hi' : rec !! i = Some (out_rec r)).
  { rewrite <- Hrec, list_lookup_fmap, Hi. reflexivity. }
  assert (Hlt : (i < length rec)%nat) by (eapply lookup_lt_Some; exact Hi').
  assert (Hshift : forall (f : Rec -> Q),
    shift (- hor) (f <$> rec) !! i =
      Some (f <$> rec !! (i + Z.to_nat hor)%nat)).
  { intros f. replace (- hor)%Z with (- Z.of_nat (Z.to_nat hor))%Z by lia.
    rewrite lookup_shift_up by (rewrite length_fmap; exact Hlt).
    rewrite list_lookup_fmap. reflexivity. }
  rewrite Hrows in Hi.
  rewrite (lookup_assemble rec _ _ i (out_rec r) _ _ Hi'
             (Hshift rec_T_z) (Hshift rec_CO2_z)) in Hi.
  injection Hi as <-. cbn [out_T_z_h1 out_CO2_h1].
  rewrite !Hproj. split; reflexivity.
Qed.

(** X8.  How [run_simulation] ends on a non-empty frame (one whose rows
    carry [T_out], [N_occ] and [T_set]): with [dt_s = 0] the whole loop
    runs and the horizon computation then raises ZeroDivisionError; in
    every other case a frame is returned that has one row per input row,
    carries the input index, and whose model columns are the results of
    stepping a simulator started at [[T0, T0, 600.0]] with [T0] the first
    setpoint. *)
Theorem run_simulation_frame_outcome (t : Z) (row : Inputs)
    (rest : list (Z * Inputs)) (p : Params) (dt : Z) :
  let df_in := (t, row) :: rest in
  if decide (dt = 0%Z)
  then run_simulation_frame df_in p dt = RaisesZeroDivisionError
  else
    exists rows : list OutRow,
      run_simulation_frame df_in p dt = Returns rows /\
      length rows = length df_in /\
      out_time <$> rows = df_in.*1 /\
      rec_values <$> (out_rec <$> rows) =
        fst (steps
               (HVACSimulator_init
                  {| T_z := T_set row; T_w := T_set row; CO2_z := 600.0 |}
                  p dt)
               df_in.*2).
Proof.
  cbv zeta.
  destruct (decide (dt = 0%Z)) as [->|Hdt]; [reflexivity|].
  rewrite (run_simulation_frame_rows t row rest p dt Hdt). cbv zeta.
  set (st0 := {| T_z := T_set row; T_w := T_set row; CO2_z := 600.0 |}).
  set (rec := run_simulation_loop p dt ((t, row) :: rest) st0 0.0 []).
  remember (assemble rec (shift (- (3600 `quot` dt)) (rec_T_z <$> rec))
              (shift (- (3600 `quot` dt)) (rec_CO2_z <$> rec)))
    as rows eqn:Hrows.
  exists rows. split; [reflexivity|].
  assert (Hlen : length rec = length ((t, row) :: rest))
    by apply length_run_simulation_loop.
  assert (Hrec : out_rec <$> rows = rec).
  { rewrite Hrows. apply out_rec_assemble;
      rewrite length_shift, length_fmap; reflexivity. }
  destruct (run_simulation_loop_steps p dt ((t, row) :: rest) st0 0.0)
    as [Hv Ht].
  split; [|split].
  - rewrite <- Hlen, <- Hrec, length_fmap. reflexivity.
  - transitivity (rec_time <$> rec); [|exact Ht].
    rewrite <- Hrec, <- list_fmap_compose. reflexivity.
  - rewrite Hrec. exact Hv.
Qed.

(** X9.  The columns [T_z_h1] and [CO2_h1] of a returned frame: for a
    positive step size, row [i] holds the [T_z] and [CO2_z] of row
    [i + hor], where [hor] is [3600 / dt_s] rounded down, and holds NaN
    when the frame has no such row (its last [hor] rows). *)
Theorem forecast_columns (df_in : list (Z * Inputs)) (p : Params) (dt : Z)
    (rows : list OutRow) (i : nat) (r : OutRow) :
  (0 < dt)%Z ->
  run_simulation_frame df_in p dt = Returns rows ->
  rows !! i = Some r ->
  out_T_z_h1 r = out_T_z <$> rows !! (i + Z.to_nat (3600 `quot` dt))%nat /\
  out_CO2_h1 r = out_CO2_z <$> rows !! (i + Z.to_nat (3600 `quot` dt))%nat.
Proof.
  intros Hdt Hrun Hi.
  destruct (frame_structure df_in p dt rows Hrun) as (_ & _ & H).
  exact (H Hdt i r Hi).
Qed.

(** X10.  With a step size above one hour the horizon is zero rows: the
    two "one hour ahead" columns of the returned frame repeat the current
    [T_z] and [CO2_z] of their own row. *)
Theorem forecast_degenerate (df_in : list (Z * Inputs)) (p : Params) (dt : Z)
    (rows : list OutRow) (r : OutRow) :
  (3600 < dt)%Z ->
  run_simulation_frame df_in p dt = Returns rows ->
  r ∈ rows ->
  out_T_z_h1 r = Some (out_T_z r) /\ out_CO2_h1 r = Some (out_CO2_z r).
Proof.
  intros Hdt Hrun Hin.
  apply list_elem_of_lookup in Hin as [i Hi].
  destruct (frame_structure df_in p dt rows Hrun) as (_ & _ & H).
  destruct (H ltac:(lia) i r Hi) as [H1 H2].
  rewrite Z.quot_small in H1, H2 by lia.
  cbn [Z.to_nat] in H1, H2. rewrite Nat.add_0_r, Hi in H1, H2.
  split; assumption.
Qed.

(** X11.  The batch run starts at the first setpoint, so its first row is
    computed with the unit idle: whatever the inputs, the first row of a
    returned frame reports the power [0.0] and a cumulative energy of
    zero. *)
Theorem batch_first_row_idle (t : Z) (row : Inputs)
    (rest : list (Z * Inputs)) (p : Params) (dt : Z) :
  dt <> 0%Z ->
  exists (r : OutRow) (rows : list OutRow),
    run_simulation_frame ((t, row) :: rest) p dt = Returns (r :: rows) /\
    out_time r = t /\ out_P_e r = 0.0 /\ out_E_KWh r == 0.
Proof.
  intros Hdt.
  destruct (run_simulation_frame ((t, row) :: rest) p dt) as [rows| |] eqn:Hrun.
  2,3: rewrite (run_simulation_frame_rows t row rest p dt Hdt) in Hrun;
       discriminate Hrun.
  destruct (frame_structure _ p dt rows Hrun) as (Hrec & _ & _).
  unfold run_simulation in Hrec. injection Hrec as Hrec.
  cbn [run_simulation_loop] in Hrec.
  rewrite run_simulation_loop_rec in Hrec. cbn [app] in Hrec.
  destruct rows as [|r rows]; [discriminate Hrec|].
  cbn [fmap list_fmap] in Hrec.
  apply (f_equal head) in Hrec. cbn [head] in Hrec.
  apply (inj Some) in Hrec.
  exists r, rows. split; [reflexivity|].
  apply (f_equal rec_time) in Hrec as Ht.
  apply (f_equal rec_P_e) in Hrec as HP.
  apply (f_equal rec_E_KWh) in Hrec as HE.
  cbn [rec_time rec_P_e rec_E_KWh out_rec] in Ht, HP, HE.
  rewrite rhs_P_e in HP, HE. cbn [T_z] in HP, HE.
  rewrite hvac_power_idle in HP, HE by reflexivity. cbn [snd] in HP, HE.
  split; [symmetry; exact Ht|]. split; [symmetry; exact HP|].
  rewrite <- HE. field.
Qed.

Lemma forecast_columns_witness :
  exists (rows : list OutRow) (r : OutRow),
    run_simulation_frame two_rows default_Params 1800 = Returns rows /\
    rows !! 0%nat = Some r /\
    out_T_z_h1 r =
      out_T_z <$> rows !! (0 + Z.to_nat (3600 `quot` 1800))%nat /\
    out_CO2_h1 r =
      out_CO2_z <$> rows !! (0 + Z.to_nat (3600 `quot` 1800))%nat.
Proof.
  eexists _, _. split; [reflexivity|]. split; [reflexivity|].
  eapply (forecast_columns two_rows default_Params 1800);
    [lia | reflexivity | reflexivity].
Defined.

Lemma forecast_degenerate_witness :
  exists (rows : list OutRow) (r : OutRow),
    run_simulation_frame two_rows default_Params 7200 = Returns rows /\
    r ∈ rows /\
    out_T_z_h1 r = Some (out_T_z r) /\ out_CO2_h1 r = Some (out_CO2_z r).
Proof.
  eexists _, _. split; [reflexivity|]. split; [left|].
  eapply (forecast_degenerate two_rows default_Params 7200);
    [lia | reflexivity | left].
Defined.

Lemma batch_first_row_idle_witness :
  exists (r : OutRow) (rows : list OutRow),
    run_simulation_frame ((0%Z, scenario_inputs) :: []) default_Params 300 =
      Returns (r :: rows) /\
    out_time r = 0%Z /\ out_P_e r = 0.0 /\ out_E_KWh r == 0.
Proof.
  apply (batch_first_row_idle 0 scenario_inputs [] default_Params 300).
  lia.
Defined.

(** ** dashboard.py and run_live_hvac.py: more on the callbacks *)

Ltac callback_case :=
  match goal with
  | |- context [getitem ?m ?k] =>
      destruct (getitem m k) as [?v|[]] eqn:?Hget
  | |- context [py_int ?f ?v] =>
      destruct (py_int f v) as [?n|[]] eqn:?Hint
  | |- context [py_float ?f ?v] =>
      destruct (py_float f v) as [?q|[]] eqn:?Hfloat
  end; cbn.

Ltac callback_cases :=
  unfold dashboard_on_sensor_data_received, run_live_on_sensor_data_received,
    try_except_KeyError_ValueError, dashboard_try_body, run_live_try_body,
    mbind, mret, M_bind, M_ret, pure_, result_bind, call_step, append_history;
  repeat callback_case.

Section MoreIngestion.

Variable float_of_str : string -> option Q.
Variable int_of_str : string -> option Z.

Local Abbreviation dashboard_cb :=
  (dashboard_on_sensor_data_received float_of_str int_of_str).
Local Abbreviation run_live_cb :=
  (run_live_on_sensor_data_received float_of_str int_of_str).

(** X12.  A message of finite numbers whose three required fields
    convert, and whose [I_sol], if present, converts too, all within the
    range of a float (an int beyond it makes [float] or [100.0 * N_occ]
    raise OverflowError), is accepted: the callback returns normally after
    exactly one [step] on the inputs built from the converted fields
    (internal gain left to its default), and exactly one entry is appended
    to the history, carrying the result of that step, the time of arrival,
    the head count and the setpoint. *)
Theorem dashboard_accepts (now : Z) (msg : gmap string pyval) (w : World)
    (vo vn vs : pyval) (t_out t_set i_sol : Q) (n_occ : Z) :
  msg !! "T_out" = Some vo -> py_float float_of_str vo = Ok t_out ->
  msg !! "N_occ" = Some vn -> py_int int_of_str vn = Ok n_occ ->
  msg !! "T_set" = Some vs -> py_float float_of_str vs = Ok t_set ->
  py_float float_of_str (get msg "I_sol" (PFloat 0.0)) = Ok i_sol ->
  value_fits_float vo -> value_fits_float vs ->
  value_fits_float (get msg "I_sol" (PFloat 0.0)) ->
  int_fits_float n_occ ->
  let inputs :=
    {| T_out := t_out; N_occ := inject_Z n_occ; T_set := t_set;
       I_sol := Some i_sol; Q_int := None |} in
  dashboard_cb now msg w =
    (Ok tt,
     {| hvac_sim := fst (step (hvac_sim w) inputs);
        data_deque :=
          deque_append data_deque_maxlen (data_deque w)
            {| entry_result := snd (step (hvac_sim w) inputs);
               entry_timestamp := now;
               entry_N_occ := n_occ;
               entry_T_set := t_set |} |}).
Proof.
  intros Ho Hfo Hn Hin Hs Hfs Hi _ _ _ _. cbv zeta.
  unfold dashboard_on_sensor_data_received, try_except_KeyError_ValueError,
    dashboard_try_body, mbind, M_bind, pure_, result_bind, call_step,
    append_history, getitem.
  rewrite Hn, Hin, Ho, Hfo, Hs, Hfs, Hi. reflexivity.
Qed.


(** X13.  Keys other than [T_out], [N_occ], [T_set] and [I_sol] are never
    read: adding any other key to a message (a [Q_int], say) changes
    nothing in what either callback does. *)
Theorem callbacks_ignore_other_keys (now : Z) (msg : gmap string pyval)
    (w : World) (k : string) (v : pyval) :
  k <> "T_out" -> k <> "N_occ" -> k <> "T_set" -> k <> "I_sol" ->
  dashboard_cb now (<[k := v]> msg) w = dashboard_cb now msg w /\
  run_live_cb (<[k := v]> msg) w = run_live_cb msg w.
Proof.
  intros H1 H2 H3 H4.
  unfold dashboard_on_sensor_data_received, run_live_on_sensor_data_received,
    dashboard_try_body, run_live_try_body, getitem, get.
  rewrite !(lookup_insert_ne msg k) by assumption.
  split; reflexivity.
Qed.


(** X14.  [I_sol] is optional, with default 0.0: a message without [I_sol]
    is handled exactly like the same message with ["I_sol": 0.0].  It is
    still converted when present: an [I_sol] string that is not a number
    makes the callback skip the event, the globals unchanged, even though
    the three required fields are fine. *)
Theorem I_sol_optional (now : Z) (msg : gmap string pyval) (w : World) :
  (msg !! "I_sol" = None ->
   dashboard_cb now (<["I_sol" := PFloat 0.0]> msg) w = dashboard_cb now msg w) /\
  (forall s : string,
     msg !! "I_sol" = Some (PStr s) -> float_of_str s = None ->
     snd (dashboard_cb now msg w) = w).
Proof.
  split.
  - intros Hnone.
    unfold dashboard_on_sensor_data_received, dashboard_try_body, getitem, get.
    rewrite (lookup_insert_ne msg "I_sol" "N_occ") by discriminate.
    rewrite (lookup_insert_ne msg "I_sol" "T_out") by discriminate.
    rewrite (lookup_insert_ne msg "I_sol" "T_set") by discriminate.
    rewrite lookup_insert_eq, Hnone. reflexivity.
  - intros s Hs Hbad.
    assert (Hsol : py_float float_of_str (get msg "I_sol" (PFloat 0.0)) =
                   Raise ValueError).
    { unfold get. rewrite Hs. cbn. rewrite Hbad. reflexivity. }
    unfold dashboard_on_sensor_data_received, try_except_KeyError_ValueError,
      dashboard_try_body, mbind, mret, M_bind, M_ret, pure_, result_bind,
      call_step, append_history.
    rewrite Hsol.
    repeat callback_case; reflexivity.
Qed.

(** X15.  The two callbacks treat the simulator alike: on every message
    they leave it in the same state, stepped once or untouched;
    [run_live_hvac]'s callback never touches the history. *)
Theorem callbacks_agree_on_simulator (now : Z) (msg : gmap string pyval)
    (w : World) :
  hvac_sim (snd (dashboard_cb now msg w)) = hvac_sim (snd (run_live_cb msg w)) /\
  data_deque (snd (run_live_cb msg w)) = data_deque w.
Proof.
  callback_cases; split; reflexivity.
Qed.

End MoreIngestion.

Lemma dashboard_accepts_witness :
  let inputs :=
    {| T_out := 25.0; N_occ := inject_Z 5; T_set := 24.0;
       I_sol := Some 0.0; Q_int := None |} in
  dashboard_on_sensor_data_received no_float no_int 7 valid_msg
    dashboard_world =
    (Ok tt,
     {| hvac_sim := fst (step (hvac_sim dashboard_world) inputs);
        data_deque :=
          deque_append data_deque_maxlen (data_deque dashboard_world)
            {| entry_result := snd (step (hvac_sim dashboard_world) inputs);
               entry_timestamp := 7;
               entry_N_occ := 5;
               entry_T_set := 24.0 |} |}).
Proof.
  apply (dashboard_accepts no_float no_int 7 valid_msg dashboard_world
           (PFloat 25.0) (PInt 5) (PFloat 24.0) 25.0 24.0 0.0 5);
    try reflexivity; try exact I.
  vm_compute. discriminate.
Defined.

Lemma callbacks_ignore_other_keys_witness :
  dashboard_on_sensor_data_received no_float no_int 7
    (<["Q_int" := PFloat 5000.0]> valid_msg) dashboard_world =
  dashboard_on_sensor_data_received no_float no_int 7 valid_msg
    dashboard_world /\
  run_live_on_sensor_data_received no_float no_int
    (<["Q_int" := PFloat 5000.0]> valid_msg) dashboard_world =
  run_live_on_sensor_data_received no_float no_int valid_msg dashboard_world.
Proof.
  apply (callbacks_ignore_other_keys no_float no_int 7 valid_msg
           dashboard_world "Q_int" (PFloat 5000.0)); discriminate.
Defined.

Lemma I_sol_optional_witness :
  dashboard_on_sensor_data_received no_float no_int 7
    (<["I_sol" := PFloat 0.0]> valid_msg) dashboard_world =
  dashboard_on_sensor_data_received no_float no_int 7 valid_msg
    dashboard_world /\
  snd (dashboard_on_sensor_data_received no_float no_int 7
         (<["I_sol" := PStr "sunny"]> valid_msg) dashboard_world) =
  dashboard_world.
Proof.
  split.
  - apply (I_sol_optional no_float no_int 7 valid_msg dashboard_world).
    reflexivity.
  - apply (proj2 (I_sol_optional no_float no_int 7
                    (<["I_sol" := PStr "sunny"]> valid_msg) dashboard_world)
             "sunny"); reflexivity.
Defined.

(** ** dashboard.py: the history as the reader sees it *)

(** After an append to a deque of positive capacity the new item is the
    last one. *)
Lemma last_deque_append {A : Type} (maxlen : nat) (d : list A) (x : A) :
  (0 < maxlen)%nat -> last (deque_append maxlen d x) = Some x.
Proof.
  intros Hpos. unfold deque_append.
  destruct (decide (maxlen < length (d ++ [x]))%nat) as [Hfull|_].
  - destruct d as [|y d].
    + cbn in Hfull. lia.
    + cbn [app tail]. apply last_snoc.
  - apply last_snoc.
Qed.

(** Order is kept when the leftmost item goes and when a larger one comes
    in on the right. *)
Lemma nondecreasing_tail (l : list Q) :
  nondecreasing l -> nondecreasing (tail l).
Proof.
  destruct l as [|x [|y l]]; cbn; try tauto.
Qed.

Lemma nondecreasing_snoc (l : list Q) (x : Q) :
  nondecreasing l -> Forall (fun y => y <= x) l -> nondecreasing (l ++ [x]).
Proof.
  induction l as [|a k IH]; intros Hl Hall.
  - exact I.
  - apply Forall_cons in Hall as [Ha Hall].
    destruct k as [|b k].
    + cbn. split; [exact Ha | exact I].
    + cbn in Hl |- *. destruct Hl as [Hab Hl].
      split; [exact Hab|]. apply IH; assumption.
Qed.

Lemma deque_append_Forall {A : Type} (P : A -> Prop) (maxlen : nat)
    (d : list A) (x : A) :
  Forall P d -> P x -> Forall P (deque_append maxlen d x).
Proof.
  intros Hd Hx. unfold deque_append.
  assert (H : Forall P (d ++ [x])).
  { apply Forall_app. split; [exact Hd|].
    constructor; [exact Hx | constructor]. }
  destruct (decide (maxlen < length (d ++ [x]))%nat) as [_|_]; [|exact H].
  destruct (d ++ [x]) as [|y k]; [constructor|].
  apply Forall_cons in H as [_ H]. exact H.
Qed.

Lemma deque_append_nondecreasing {A : Type} (f : A -> Q) (maxlen : nat)
    (d : list A) (x : A) :
  nondecreasing (map f d) -> Forall (fun y => f y <= f x) d ->
  nondecreasing (map f (deque_append maxlen d x)).
Proof.
  intros Hd Hall. unfold deque_append.
  assert (H : nondecreasing (map f (d ++ [x]))).
  { rewrite map_app. apply nondecreasing_snoc; [exact Hd|].
    apply Forall_map. exact Hall. }
  destruct (decide (maxlen < length (d ++ [x]))%nat) as [_|_]; [|exact H].
  apply nondecreasing_tail in H.
  destruct (d ++ [x]); exact H.
Qed.

Section History.

Variable float_of_str : string -> option Q.
Variable int_of_str : string -> option Z.

Local Abbreviation reachable_ := (reachable float_of_str int_of_str).

(** What holds of the globals at any time: the simulator keeps the
    parameters and step size of start-up, the history is within capacity,
    ordered by cumulative energy and below the simulator's energy, and its
    last entry, if any, is the simulator's present state. *)
Lemma reachable_invariant (w : World) :
  reachable_ w ->
  params (hvac_sim w) = default_Params /\
  dt_s (hvac_sim w) = 300%Z /\
  (length (data_deque w) <= data_deque_maxlen)%nat /\
  nondecreasing
    (map (fun e => res_E_KWh_cumulative (entry_result e)) (data_deque w)) /\
  Forall (fun e => res_E_KWh_cumulative (entry_result e) <=
                   cumulative_energy_kwh (hvac_sim w)) (data_deque w) /\
  Forall (fun e => 0 <= res_P_e (entry_result e)) (data_deque w) /\
  match last (data_deque w) with
  | None => w = dashboard_world
  | Some e =>
      res_T_z (entry_result e) = T_z (state (hvac_sim w)) /\
      res_T_w (entry_result e) = T_w (state (hvac_sim w)) /\
      res_CO2_z (entry_result e) = CO2_z (state (hvac_sim w)) /\
      res_E_KWh_cumulative (entry_result e) =
        cumulative_energy_kwh (hvac_sim w)
  end.
Proof.
  induction 1 as [|w now msg Hw IH].
  - cbn. repeat split; try constructor. lia.
  - destruct IH as (Hp & Hdt & Hlen & Hord & Hbelow & Hpow & Hlast).
    destruct (dashboard_all_or_nothing float_of_str int_of_str now msg w)
      as [Hsame|(inputs & n & t & Hout)].
    + rewrite Hsame. repeat split; assumption.
    + rewrite Hout. cbn [snd hvac_sim data_deque].
      assert (Hle : cumulative_energy_kwh (hvac_sim w) <=
                    res_E_KWh_cumulative (snd (step (hvac_sim w) inputs))).
      { apply step_energy_le; rewrite ?Hp, ?Hdt; try reflexivity. lia. }
      split; [rewrite step_params; exact Hp|].
      split; [rewrite step_dt_s; exact Hdt|].
      split; [apply deque_append_length; exact Hlen|].
      split.
      { apply (deque_append_nondecreasing
                 (fun e => res_E_KWh_cumulative (entry_result e)));
          [exact Hord|].
        eapply Forall_impl; [exact Hbelow|].
        cbn beta. intros e He. cbn [entry_result]. lra. }
      split.
      { apply deque_append_Forall.
        - eapply Forall_impl; [exact Hbelow|]. cbn beta. intros e He.
          change (cumulative_energy_kwh (fst (step (hvac_sim w) inputs)))
            with (res_E_KWh_cumulative (snd (step (hvac_sim w) inputs))).
          lra.
        - cbn [entry_result].
          change (cumulative_energy_kwh (fst (step (hvac_sim w) inputs)))
            with (res_E_KWh_cumulative (snd (step (hvac_sim w) inputs))).
          lra. }
      split.
      { apply deque_append_Forall; [exact Hpow|].
        cbn [entry_result step snd res_P_e]. rewrite rhs_P_e.
        apply hvac_power_nonneg; rewrite Hp; reflexivity. }
      rewrite last_deque_append by (unfold data_deque_maxlen; lia).
      repeat split.
Qed.

(** X16.  The reader gets the state as of the last append.  The history
    changes only by the append made under the lock, so what the reader
    thread copies under that lock is the history some callback left; what
    [update_graph_live] makes of it does not depend on what the simulator
    is doing at that moment ([sim_now], possibly in the middle of the next
    step): it answers "No data yet." only while the globals were still
    those of start-up, and otherwise its KPI values are the state and
    cumulative energy the simulator had when that callback ended. *)
Theorem reader_sees_last_append (w : World) (sim_now : HVACSimulator) :
  reachable_ w ->
  match update_graph_live {| hvac_sim := sim_now;
                             data_deque := data_deque w |} with
  | None => w = dashboard_world
  | Some (history, kpi) =>
      history = data_deque w /\
      kpi_T_z kpi = T_z (state (hvac_sim w)) /\
      kpi_CO2_z kpi = CO2_z (state (hvac_sim w)) /\
      kpi_total_energy_kwh kpi = cumulative_energy_kwh (hvac_sim w)
  end.
Proof.
  intros Hw.
  destruct (reachable_invariant w Hw) as (_ & _ & _ & _ & _ & _ & Hlast).
  unfold update_graph_live. cbn [data_deque].
  destruct (last (data_deque w)) as [e|].
  - destruct Hlast as (H1 & _ & H3 & H4). repeat split; assumption.
  - exact Hlast.
Qed.

(** X17.  At any time the dashboard can reach, the simulator still has the
    default parameters and the 300 s step of start-up, and the history
    holds at most 288 entries, each with a non-negative power, in
    non-decreasing order of cumulative energy. *)
Theorem history_is_ordered (w : World) :
  reachable_ w ->
  params (hvac_sim w) = default_Params /\
  dt_s (hvac_sim w) = 300%Z /\
  (length (data_deque w) <= 288)%nat /\
  Forall (fun e => 0 <= res_P_e (entry_result e)) (data_deque w) /\
  nondecreasing
    (map (fun e => res_E_KWh_cumulative (entry_result e)) (data_deque w)).
Proof.
  intros Hw.
  destruct (reachable_invariant w Hw) as (Hp & Hdt & Hlen & Hord & _ & Hpow & _).
  repeat split; assumption.
Qed.

End History.

Lemma reader_sees_last_append_witness :
  match update_graph_live
          {| hvac_sim := dashboard_simulator;
             data_deque :=
               data_deque
                 (snd (dashboard_on_sensor_data_received no_float no_int 7
                         valid_msg dashboard_world)) |} with
  | None =>
      snd (dashboard_on_sensor_data_received no_float no_int 7 valid_msg
             dashboard_world) = dashboard_world
  | Some (history, kpi) =>
      history =
        data_deque
          (snd (dashboard_on_sensor_data_received no_float no_int 7
                  valid_msg dashboard_world)) /\
      kpi_T_z kpi =
        T_z (state (hvac_sim
          (snd (dashboard_on_sensor_data_received no_float no_int 7
                  valid_msg dashboard_world)))) /\
      kpi_CO2_z kpi =
        CO2_z (state (hvac_sim
          (snd (dashboard_on_sensor_data_received no_float no_int 7
                  valid_msg dashboard_world)))) /\
      kpi_total_energy_kwh kpi =
        cumulative_energy_kwh (hvac_sim
          (snd (dashboard_on_sensor_data_received no_float no_int 7
                  valid_msg dashboard_world)))
  end.
Proof.
  apply (reader_sees_last_append no_float no_int
           (snd (dashboard_on_sensor_data_received no_float no_int 7
                   valid_msg dashboard_world))
           dashboard_simulator).
  apply reachable_message. apply reachable_start.
Defined.

Lemma history_is_ordered_witness :
  let w := snd (dashboard_on_sensor_data_received no_float no_int 7
                  valid_msg dashboard_world) in
  params (hvac_sim w) = default_Params /\
  dt_s (hvac_sim w) = 300%Z /\
  (length (data_deque w) <= 288)%nat /\
  Forall (fun e => 0 <= res_P_e (entry_result e)) (data_deque w) /\
  nondecreasing
    (map (fun e => res_E_KWh_cumulative (entry_result e)) (data_deque w)).
Proof.
  apply (history_is_ordered no_float no_int).
  apply reachable_message. apply reachable_start.
Defined.

(** ** mqtt_integration/client.py *)

(** The exceptions the conversions can raise. *)
Lemma getitem_raises (d : gmap string pyval) (k : string) (e : exn) :
  getitem d k = Raise e -> e = KeyError.
Proof.
  unfold getitem. destruct (d !! k); [discriminate|]. intros [= <-]. reflexivity.
Qed.

Lemma py_float_raises (f : string -> option Q) (v : pyval) (e : exn) :
  py_float f v = Raise e -> e = TypeError \/ e = ValueError.
Proof.
  destruct v; cbn; try discriminate; try (intros [= <-]; tauto).
  destruct (f s); [discriminate|]. intros [= <-]. tauto.
Qed.

Lemma py_int_raises (f : string -> option Z) (v : pyval) (e : exn) :
  py_int f v = Raise e -> e = TypeError \/ e = ValueError.
Proof.
  destruct v; cbn; try discriminate; try (intros [= <-]; tauto).
  destruct (f s); [discriminate|]. intros [= <-]. tauto.
Qed.

Ltac impossible_raise :=
  exfalso;
  match goal with
  | H : getitem _ _ = Raise _ |- _ => apply getitem_raises in H; discriminate H
  | H : py_int _ _ = Raise _ |- _ =>
      apply py_int_raises in H; destruct H; discriminate
  | H : py_float _ _ = Raise _ |- _ =>
      apply py_float_raises in H; destruct H; discriminate
  end.

Section OnMessageFacts.

Variable float_of_str : string -> option Q.
Variable int_of_str : string -> option Z.
Variable json_loads : string -> option json_top.

(** Only a TypeError leaves [dashboard.on_sensor_data_received], and it
    leaves the globals as they were. *)
Lemma dashboard_raises_TypeError_only (now : Z) (msg : gmap string pyval)
    (w : World) (e : exn) :
  fst (dashboard_on_sensor_data_received float_of_str int_of_str now msg w) =
    Raise e ->
  e = TypeError /\
  snd (dashboard_on_sensor_data_received float_of_str int_of_str now msg w) = w.
Proof.
  callback_cases; intros He; try discriminate He;
    try (injection He as <-; split; reflexivity);
    impossible_raise.
Qed.


End OnMessageFacts.

(** A call of [MQTTClientConfig] with its three parameters as keywords
    binds them. *)
Lemma MQTTClientConfig_call_ok (a b c : pyval) :
  MQTTClientConfig_call
    [("client_id", a); ("broker_address", b); ("port", c)] =
  Ok (MQTTClientConfig_init a b c).
Proof. reflexivity. Qed.

(** X19.  [load_mqtt_config_with_parameters] never returns a
    configuration: it calls [MQTTClientConfig] with the keywords
    [broker_port], [username] and [password], which [__init__] does not
    have (and without [port], which it requires), so every call raises
    TypeError, whatever the arguments. *)
Theorem load_mqtt_config_with_parameters_raises
    (broker_address broker_port client_id username password : pyval) :
  load_mqtt_config_with_parameters broker_address broker_port client_id
    username password = Raise TypeError.
Proof. reflexivity. Qed.

(** A dotenv file, loaded or not, leaves what the environment had. *)
Lemma load_dotenv_if_subseteq (P : Prop) `{Decision P}
    (file environ : gmap string string) :
  environ ⊆ (if decide P then load_dotenv file environ else environ).
Proof.
  unfold load_dotenv.
  destruct (decide P); [apply map_union_subseteq_l | reflexivity].
Qed.

Section LoadConfigFacts.

Variable int_of_str : string -> option Z.
Variable dotenv_file : string -> gmap string string.

(** X20.  [load_mqtt_config]: the process environment is kept by the
    dotenv files, which only add to it.  Read in the resulting
    environment, a missing [BROKER_PORT] raises TypeError and one that is
    not an integer raises ValueError; otherwise the configuration holds
    that port, [CLIENT_ID] and [BROKER_ADDRESS] ([None] when unset), and
    credentials are set exactly when both [USERNAME] and [PASSWORD] are
    defined: a lone [USERNAME] or [PASSWORD] is dropped. *)
Theorem load_mqtt_config_outcome (environ : gmap string string) :
  let res := fst (load_mqtt_config int_of_str dotenv_file environ) in
  let env := snd (load_mqtt_config int_of_str dotenv_file environ) in
  environ ⊆ env /\
  match env !! "BROKER_PORT" with
  | None => res = Raise TypeError
  | Some s =>
      match int_of_str s with
      | None => res = Raise ValueError
      | Some z =>
          exists cfg : MQTTClientConfig,
            res = Ok cfg /\
            port cfg = PInt z /\
            client_id cfg = getenv env "CLIENT_ID" /\
            broker_address cfg = getenv env "BROKER_ADDRESS" /\
            match env !! "USERNAME", env !! "PASSWORD" with
            | Some u, Some pw =>
                has_credentials cfg = true /\
                username cfg = PStr u /\ password cfg = PStr pw
            | _, _ =>
                has_credentials cfg = false /\
                username cfg = PNone /\ password cfg = PNone
            end
      end
  end.
Proof.
  cbv zeta. unfold load_mqtt_config. cbn [fst snd].
  set (env1 := if decide (environ !! "ENV" = Some "publish-local")
               then load_dotenv (dotenv_file "publisher-local.env") environ
               else environ).
  set (env2 := if decide (env1 !! "ENV" = Some "subscribe-local")
               then load_dotenv (dotenv_file "subscriber-local.env") env1
               else env1).
  split.
  - transitivity env1; apply load_dotenv_if_subseteq.
  - unfold getenv.
    destruct (env2 !! "BROKER_PORT") as [s|]; [|reflexivity].
    cbn [py_int]. destruct (int_of_str s) as [z|]; [|reflexivity].
    cbn [mbind result_bind]. rewrite MQTTClientConfig_call_ok.
    destruct (env2 !! "USERNAME") as [u|], (env2 !! "PASSWORD") as [pw|];
      cbn; eexists; repeat split.
Qed.

End LoadConfigFacts.

(** The message with a null field has no number out of range. *)
Lemma null_T_out_msg_fits (int_of_str : string -> option Z) :
  message_fits int_of_str null_T_out_msg.
Proof.
  split.
  - intros k v H. unfold null_T_out_msg in H.
    repeat (apply lookup_insert_Some in H as [[_ <-]|[_ H]];
            [first [exact I | vm_compute; discriminate]|]).
    rewrite lookup_empty in H. discriminate H.
  - intros v z H Hz.
    change (Some (PInt 3) = Some v) in H. injection H as <-.
    cbn in Hz. injection Hz as <-. vm_compute. discriminate.
Qed.


(** ** hvac_sim/physics.py: the head count *)

(** X21.  What the head count does in [rhs]: with a positive zone
    capacitance, zone volume and generation rate, more occupants never
    lower [dT_z/dt] or [dCO2/dt], and leave [dT_w/dt] and the power as they
    are; when the inputs carry their own [Q_int], the head count no longer
    affects [dT_z/dt] at all. *)
Theorem occupants_effect (st : State) (inp : Inputs) (p : Params)
    (n1 n2 : Q) :
  0 < C_z p -> 0 < V p -> 0 < E_occ p -> n1 <= n2 ->
  let d1 := rhs st (with_N_occ inp n1) p in
  let d2 := rhs st (with_N_occ inp n2) p in
  dTz d1 <= dTz d2 /\ dCO2 d1 <= dCO2 d2 /\
  dTw d1 = dTw d2 /\ P_e d1 = P_e d2 /\
  (is_Some (Q_int inp) -> dTz d1 = dTz d2).
Proof.
  intros HC HV HE Hn. cbv zeta. unfold rhs, with_N_occ.
  cbn [T_out N_occ T_set I_sol Q_int].
  destruct (hvac_power (T_z st) (T_set inp) p) as [Qh Pe].
  cbn [dTz dTw dCO2 P_e].
  assert (HiC : 0 < / C_z p) by (apply Qinv_lt_0_compat; exact HC).
  assert (HiV : 0 < / V p) by (apply Qinv_lt_0_compat; exact HV).
  split; [|split; [|split; [reflexivity|split; [reflexivity|]]]].
  - unfold C_z_kW. apply Qmult_le_compat_r; [|lra].
    set (a := (T_out inp - T_z st) / R_oa p).
    set (b := (T_w st - T_z st) / R_wz p).
    destruct (Q_int inp) as [q|]; cbn [default]; [apply Qle_refl|].
    assert (Hd : a + b + 100.0 * n2 / 1000.0 - Qh
                 - (a + b + 100.0 * n1 / 1000.0 - Qh) == (n2 - n1) * (1 # 10))
      by field.
    set (x1 := a + b + 100.0 * n1 / 1000.0 - Qh) in *.
    set (x2 := a + b + 100.0 * n2 / 1000.0 - Qh) in *.
    lra.
  - apply Qmult_le_compat_r; [|lra].
    set (c := ACH p * V p / 3600.0 * (400.0 - CO2_z st)).
    assert (Hd : c + E_occ p * n2 / 1000.0 * 1e6
                 - (c + E_occ p * n1 / 1000.0 * 1e6) ==
                 E_occ p * (n2 - n1) * 1000)
      by (change 1e6 with (1 * (1000000 # 1)); field).
    assert (H : 0 <= E_occ p * (n2 - n1)) by (apply Qmult_le_0_compat; lra).
    set (y1 := c + E_occ p * n1 / 1000.0 * 1e6) in *.
    set (y2 := c + E_occ p * n2 / 1000.0 * 1e6) in *.
    lra.
  - intros [q Hq]. rewrite Hq. reflexivity.
Qed.

Lemma occupants_effect_witness :
  let d1 := rhs dashboard_initial_state (with_N_occ scenario_inputs 2)
              default_Params in
  let d2 := rhs dashboard_initial_state (with_N_occ scenario_inputs 5)
              default_Params in
  dTz d1 <= dTz d2 /\ dCO2 d1 <= dCO2 d2 /\
  dTw d1 = dTw d2 /\ P_e d1 = P_e d2 /\
  (is_Some (Q_int scenario_inputs) -> dTz d1 = dTz d2).
Proof.
  apply (occupants_effect dashboard_initial_state scenario_inputs
           default_Params 2 5); try reflexivity.
  vm_compute. discriminate.
Defined.
